(** * Version resolution, build guard and config validation of [DatasetBuilder],
      and the example generator of the FLIC dataset.

    Sources embedded here:
    - [tensorflow_datasets/core/dataset_builder.py]: [BuilderConfig],
      [DatasetBuilder.__init__], [_set_version], [_choose_version], [info],
      [download_and_prepare], [_get_data_dir], [_create_builder_config],
      [builder_configs];
    - [tensorflow_datasets/image/flic.py]: the two statements of the module
      that do not parse, and [Flic._generate_examples].

    Python objects are mutable and methods raise: a method is a function from
    a state (the builder, the file system, the emitted log) to an outcome
    (returned value or raised exception) and the state it leaves behind. *)

From Stdlib Require Import Bool Ascii String List NArith ZArith Arith Lia.
From Stdlib Require Import Decimal DecimalString DecimalN.
From Stdlib Require Import Permutation.
Import ListNotations.

#[local] Open Scope string_scope.
#[local] Open Scope list_scope.

(* ================================================================== *)
(** * Part I: definitions *)
(* ================================================================== *)

(** ** [os.path] on POSIX paths *)

Module posixpath.

Definition sep : ascii := "/"%char.

(** [s.split(c)]: the pieces of [s] between the occurrences of [c];
    never the empty list. *)
Fixpoint split_on (c : ascii) (s : string) : list string :=
  match s with
  | EmptyString => [EmptyString]
  | String a s' =>
      if Ascii.eqb a c then EmptyString :: split_on c s'
      else match split_on c s' with
           | h :: t => String a h :: t
           | [] => [String a EmptyString]
           end
  end.

Definition startswith_sep (s : string) : bool :=
  match s with
  | String a _ => Ascii.eqb a sep
  | EmptyString => false
  end.

Fixpoint endswith_sep (s : string) : bool :=
  match s with
  | EmptyString => false
  | String a EmptyString => Ascii.eqb a sep
  | String _ s' => endswith_sep s'
  end.

(** [os.path.join(a, b)]: an absolute [b] replaces [a]; no separator is
    added after an empty [a] or one that already ends with it. *)
Definition join (a b : string) : string :=
  if startswith_sep b then b
  else if String.eqb a EmptyString || endswith_sep a then a ++ b
  else a ++ String sep b.

(** [os.path.join(a, *p)] *)
Definition join_all (a : string) (p : list string) : string :=
  fold_left join p a.

(** [os.path.basename(p)]: what follows the last separator. *)
Definition basename (p : string) : string :=
  last (split_on sep p) EmptyString.

(** The names a path goes through, [a//b/] and [a/b] being the same place. *)
Definition components (p : string) : list string :=
  filter (fun n => negb (String.eqb n EmptyString)) (split_on sep p).

End posixpath.

(** ** [utils.Version] *)

(** Modelled from the spec: [utils.Version] is imported from
    [tensorflow_datasets.core.utils], which is not among the sources.  The
    spec's data model gives a version as "a 3-component ordered tuple (major,
    minor, patch) with total order" with the reserved symbolic values AUTO and
    LATEST next to explicit literals; the literals are written
    [major.minor.patch] ([tfds.core.Version("2.0.0")] in flic.py), and the
    constructor raises [ValueError] on a string that is not one (the
    [except ValueError] of [_get_data_dir]). *)
Record Ver : Type := mkVer { major : N; minor : N; patch : N }.

Inductive Version : Type :=
| AUTO
| LATEST
| Explicit (v : Ver).

Definition Ver_compare (a b : Ver) : comparison :=
  match N.compare (major a) (major b) with
  | Eq => match N.compare (minor a) (minor b) with
          | Eq => N.compare (patch a) (patch b)
          | c => c
          end
  | c => c
  end.

Definition Ver_eqb (a b : Ver) : bool :=
  match Ver_compare a b with Eq => true | _ => false end.

Definition Ver_ltb (a b : Ver) : bool :=
  match Ver_compare a b with Lt => true | _ => false end.

Definition Ver_leb (a b : Ver) : bool :=
  match Ver_compare a b with Gt => false | _ => true end.

Definition Version_eqb (a b : Version) : bool :=
  match a, b with
  | AUTO, AUTO => true
  | LATEST, LATEST => true
  | Explicit x, Explicit y => Ver_eqb x y
  | _, _ => false
  end.

(** [x in (a, b, ...)] on versions *)
Definition Version_in (x : Version) (l : list Version) : bool :=
  existsb (Version_eqb x) l.

Definition N_str (n : N) : string := NilZero.string_of_uint (N.to_uint n).

(** [str(version)] of a literal *)
Definition Ver_str (v : Ver) : string :=
  N_str (major v) ++ "." ++ N_str (minor v) ++ "." ++ N_str (patch v).

(** [utils.Version(s)] on a string; [None] stands for the [ValueError]. *)
Definition Ver_parse (s : string) : option Ver :=
  match posixpath.split_on "."%char s with
  | [a; b; c] =>
      match NilZero.uint_of_string a, NilZero.uint_of_string b,
            NilZero.uint_of_string c with
      | Some x, Some y, Some z =>
          Some (mkVer (N.of_uint x) (N.of_uint y) (N.of_uint z))
      | _, _, _ => None
      end
  | _ => None
  end.

(** ** [tf.gfile]: the directories on disk *)

Module gfile.

(** A file system is the list of the directories made so far, each by the
    names on its path. *)
Definition FileSystem : Type := list (list string).

Fixpoint strip_prefix (p q : list string) : option (list string) :=
  match p, q with
  | [], _ => Some q
  | a :: p', b :: q' => if String.eqb a b then strip_prefix p' q' else None
  | _ :: _, [] => None
  end.

Definition is_under (p q : list string) : bool :=
  match strip_prefix p q with Some _ => true | None => false end.

(** [tf.gfile.Exists(path)] *)
Definition Exists (fs : FileSystem) (path : string) : bool :=
  existsb (is_under (posixpath.components path)) fs.

Fixpoint dedup (l : list string) : list string :=
  match l with
  | [] => []
  | x :: l' => if existsb (String.eqb x) l' then dedup l' else x :: dedup l'
  end.

(** [tf.gfile.ListDirectory(path)]: the names directly under [path]. *)
Definition ListDirectory (fs : FileSystem) (path : string) : list string :=
  dedup (flat_map
           (fun q => match strip_prefix (posixpath.components path) q with
                     | Some (n :: _) => [n]
                     | _ => []
                     end) fs).

(** [tf.gfile.MakeDirs(path)] *)
Definition MakeDirs (fs : FileSystem) (path : string) : FileSystem :=
  fs ++ [posixpath.components path].

(** [tf.gfile.Rename(src, dst)]: everything under [src] moves under [dst]. *)
Definition Rename (fs : FileSystem) (src dst : string) : FileSystem :=
  map (fun q => match strip_prefix (posixpath.components src) q with
                | Some rest => posixpath.components dst ++ rest
                | None => q
                end) fs.

End gfile.

(** ** Objects of dataset_builder.py *)

(** [class BuilderConfig].  [oid] is the identity of the object, what
    Python's [is] compares: two configs built by separate calls differ in it
    even when every attribute agrees. *)
Module BuilderConfig.
Record t : Type := mk
  { oid : N;
    name : string;
    version : option Ver;
    description : option string }.
End BuilderConfig.

(** [a is b] *)
Definition is_ (a b : BuilderConfig.t) : bool :=
  N.eqb (BuilderConfig.oid a) (BuilderConfig.oid b).

(** The class attributes of a [DatasetBuilder] subclass. *)
Record DatasetClass : Type := mkClass
  { name : string;
    VERSION : option Ver;
    BUILDER_CONFIGS : list BuilderConfig.t }.

(** The instance attributes set by [__init__]. *)
Record DatasetBuilder : Type := mkBuilder
  { _version : option Ver;
    _builder_config : option BuilderConfig.t;
    _data_dir_root : string;
    _data_dir : option string }.

(** The [config] argument: [None], a [str] name or a [BuilderConfig]. *)
Inductive ConfigArg : Type :=
| ConfigNone
| ConfigName (s : string)
| ConfigObj (c : BuilderConfig.t).

(** [download.GenerateMode], by the three members dataset_builder.py binds. *)
Inductive GenerateMode : Type :=
| FORCE_REDOWNLOAD
| REUSE_CACHE_IF_EXISTS
| REUSE_DATASET_IF_EXISTS.

Definition GenerateMode_eqb (a b : GenerateMode) : bool :=
  match a, b with
  | FORCE_REDOWNLOAD, FORCE_REDOWNLOAD => true
  | REUSE_CACHE_IF_EXISTS, REUSE_CACHE_IF_EXISTS => true
  | REUSE_DATASET_IF_EXISTS, REUSE_DATASET_IF_EXISTS => true
  | _, _ => false
  end.

(** ** Exceptions *)

(** Every [raise] of the modelled methods, by its class and its message. *)
Inductive ValueErrorMsg : Type :=
| CouldNotFindRequestedVersion   (* "Could not find the requested version at {}" *)
| DataVersionHigherThanCode      (* "... is at a higher version than the code ..." *)
| CannotGenerateAlreadyLoaded    (* "DatasetBuilder cannot generate a dataset if it has already loaded data" *)
| OverwriteExistingDataset       (* "Trying to overwrite an existing dataset {} at {}" *)
| BuilderConfigNotFound          (* "BuilderConfig %s not found" *)
| BuilderConfigMustHaveName      (* "BuilderConfig must have a name" *)
| CustomConfigNamedAsAvailable   (* "Cannot name a custom BuilderConfig the same as an available BuilderConfig" *)
| BuilderConfigMustHaveVersion   (* "BuilderConfig %s must have a version" *)
| BuilderConfigMustHaveDescription (* "BuilderConfig %s must have a description" *)
| DuplicatedConfigNames          (* "Names in BUILDER_CONFIGS must not be duplicated" *)
| InvalidVersion.                (* raised by utils.Version(...) *)

Inductive AssertionMsg : Type :=
| NoDefinedVersion        (* "DatasetBuilder {} does not have defined version" *)
| VersionAlreadyDefined   (* "Version as been defined, yet isn't restored yet." *)
| InfoBeforeVersion.      (* "Info should not been called before version has been defined" *)

Inductive Exception : Type :=
| ValueError (m : ValueErrorMsg)
| AssertionError (m : AssertionMsg)
| TypeError.

(** The spec's names for four of them. *)
Definition VersionNotFoundError : Exception := ValueError CouldNotFindRequestedVersion.
Definition StaleCodeError : Exception := ValueError DataVersionHigherThanCode.
Definition AlreadyBoundError : Exception := ValueError CannotGenerateAlreadyLoaded.
Definition VersionCollisionError : Exception := ValueError OverwriteExistingDataset.

Definition is_AssertionError (e : Exception) : bool :=
  match e with AssertionError _ => true | _ => false end.

(** ** What a run leaves behind besides the builder *)

(** Log lines and the calls into the collaborators that are not part of
    dataset_builder.py ([DatasetInfo], the download manager, the abstract
    [_download_and_prepare]); a call to a collaborator is recorded, its own
    work is not modelled and it is taken to return. *)
Inductive Event : Type :=
| LogNoPreviousData (code : Ver)              (* info "No previous data found for %s. Using code version: %s" *)
| LogIgnoringDataset (data code : Ver)        (* info "Ignoring dataset %s (version %s) from disk. Using code version: %s" *)
| LogRestoring (data : Ver) (dir : option string) (* info "Restoring dataset %s at version %s from %s" *)
| WarnBackwardCompatibility (data code : Ver) (* warn "... Entering in backward compatibility mode..." *)
| WarnCustomConfig (name : string)            (* warning "Using custom data configuration %s" *)
| LogReusing (dir : option string)            (* info "Reusing dataset %s (%s)" *)
| LogGenerating (dir : string)                (* info "Generating dataset %s (%s)" *)
| PrintDownloading (dir : option string)      (* cprint "Downloading / extracting dataset %s (%s) to %s..." *)
| InfoInitializeFromPackageData               (* self.info.initialize_from_package_data() *)
| InfoReadFromDirectory (dir : option string) (* self.info.read_from_directory(self._data_dir) *)
| MakeDownloadManager (force : bool)          (* download.DownloadManager(...) *)
| CallDownloadAndPrepare (dir : option string)(* self._download_and_prepare(dl_manager=dl_manager) *)
| InfoComputeDynamicProperties                (* self.info.compute_dynamic_properties() *)
| InfoWriteToDirectory (dir : option string). (* self.info.write_to_directory(self._data_dir) *)

Definition is_generation (e : Event) : bool :=
  match e with
  | CallDownloadAndPrepare _ | InfoComputeDynamicProperties
  | InfoWriteToDirectory _ => true
  | _ => false
  end.

Record State : Type := mkState
  { self : DatasetBuilder;
    fs : gfile.FileSystem;
    log : list Event }.

(** ** Methods as state transformers that may raise *)

Inductive Outcome (A : Type) : Type :=
| Return (a : A)
| Raise (e : Exception).
Arguments Return {A} a.
Arguments Raise {A} e.

Definition M (A : Type) : Type := State -> Outcome A * State.

Definition ret {A : Type} (a : A) : M A := fun st => (Return a, st).

Definition raise {A : Type} (e : Exception) : M A := fun st => (Raise e, st).

Definition bind {A B : Type} (m : M A) (k : A -> M B) : M B :=
  fun st => match m st with
            | (Return a, st') => k a st'
            | (Raise e, st') => (Raise e, st')
            end.

Declare Scope py_scope.
Delimit Scope py_scope with py.
Notation "x <- m ;; k" := (bind m (fun x => k))
  (at level 61, m at next level, right associativity) : py_scope.
Notation "m ;; k" := (bind m (fun _ => k))
  (at level 61, right associativity) : py_scope.
#[local] Open Scope py_scope.

Definition get_self : M DatasetBuilder := fun st => (Return (self st), st).

Definition get_fs : M gfile.FileSystem := fun st => (Return (fs st), st).

Definition put_fs (f : gfile.FileSystem) : M unit :=
  fun st => (Return tt, mkState (self st) f (log st)).

Definition emit (e : Event) : M unit :=
  fun st => (Return tt, mkState (self st) (fs st) (log st ++ [e])).

(** [self._version = v] and the like *)
Definition set_version (v : option Ver) : M unit :=
  fun st => let b := self st in
            (Return tt,
             mkState (mkBuilder v (_builder_config b) (_data_dir_root b) (_data_dir b))
                     (fs st) (log st)).

Definition set_builder_config (c : option BuilderConfig.t) : M unit :=
  fun st => let b := self st in
            (Return tt,
             mkState (mkBuilder (_version b) c (_data_dir_root b) (_data_dir b))
                     (fs st) (log st)).

Definition set_data_dir_root (r : string) : M unit :=
  fun st => let b := self st in
            (Return tt,
             mkState (mkBuilder (_version b) (_builder_config b) r (_data_dir b))
                     (fs st) (log st)).

Definition set_data_dir (d : option string) : M unit :=
  fun st => let b := self st in
            (Return tt,
             mkState (mkBuilder (_version b) (_builder_config b) (_data_dir_root b) d)
                     (fs st) (log st)).

(** Truth value of a path attribute: [None] and [""] are false. *)
Definition path_truthy (d : option string) : bool :=
  match d with
  | Some s => negb (String.eqb s EmptyString)
  | None => false
  end.

(** Truth value of an optional object that defines no [__bool__]. *)
Definition truthy {A : Type} (o : option A) : bool :=
  match o with Some _ => true | None => false end.

(** Truth value of an optional [str]. *)
Definition str_truthy (o : option string) : bool := path_truthy o.

(** [utils.Version(x)] on an attribute that may be [None]. *)
Definition Version_of (x : option Ver) : M Ver :=
  match x with
  | Some v => ret v
  | None => raise (ValueError InvalidVersion)
  end.

(** [utils.Version(s)] on a directory name. *)
Definition Version_of_str (s : string) : M Ver :=
  match Ver_parse s with
  | Some v => ret v
  | None => raise (ValueError InvalidVersion)
  end.

(** ** [DatasetBuilder] *)

(** *** [builder_configs] (class property)

    A [dict] keeps one item per key, at the place of the key's first
    insertion and with the value of its last. *)
Definition dict : Type := list (string * BuilderConfig.t).

Fixpoint dict_set (k : string) (v : BuilderConfig.t) (d : dict) : dict :=
  match d with
  | [] => [(k, v)]
  | (k', v') :: d' =>
      if String.eqb k k' then (k', v) :: d' else (k', v') :: dict_set k v d'
  end.

Fixpoint dict_get (k : string) (d : dict) : option BuilderConfig.t :=
  match d with
  | [] => None
  | (k', v') :: d' => if String.eqb k k' then Some v' else dict_get k d'
  end.

(** [{config.name: config for config in cls.BUILDER_CONFIGS}] *)
Definition config_dict (cls : DatasetClass) : dict :=
  fold_left (fun d c => dict_set (BuilderConfig.name c) c d)
            (BUILDER_CONFIGS cls) [].

Definition builder_configs (cls : DatasetClass) : M dict :=
  let config_dict := config_dict cls in
  if negb (Nat.eqb (List.length config_dict) (List.length (BUILDER_CONFIGS cls)))
  then raise (ValueError DuplicatedConfigNames)
  else ret config_dict.

(** *** [_create_builder_config] *)
Definition _create_builder_config (cls : DatasetClass)
    (builder_config : ConfigArg) : M (option BuilderConfig.t) :=
  (* Default to first config *)
  let builder_config :=
    match builder_config, BUILDER_CONFIGS cls with
    | ConfigNone, c :: _ => ConfigObj c
    | _, _ => builder_config
    end in
  resolved <-
    match builder_config with
    | ConfigNone => ret None                    (* if not builder_config: return *)
    | ConfigName name =>
        if String.eqb name EmptyString then ret None
        else
          configs <- builder_configs cls ;;
          match dict_get name configs with
          | None => raise (ValueError BuilderConfigNotFound)
          | Some c => ret (Some c)
          end
    | ConfigObj c => ret (Some c)
    end ;;
  match resolved with
  | None => ret None
  | Some builder_config =>
      let name := BuilderConfig.name builder_config in
      if String.eqb name EmptyString
      then raise (ValueError BuilderConfigMustHaveName)
      else
        configs <- builder_configs cls ;;
        match dict_get name configs with
        | None =>                               (* is_custom *)
            emit (WarnCustomConfig name) ;;
            ret (Some builder_config)
        | Some available =>
            if negb (is_ builder_config available)
            then raise (ValueError CustomConfigNamedAsAvailable)
            else if negb (truthy (BuilderConfig.version builder_config))
            then raise (ValueError BuilderConfigMustHaveVersion)
            else if negb (str_truthy (BuilderConfig.description builder_config))
            then raise (ValueError BuilderConfigMustHaveDescription)
            else ret (Some builder_config)
        end
  end.

(** *** [_get_data_dir] *)

(** [(utils.Version(dir_name), dir_name)] for the names that are versions. *)
Fixpoint version_dirnames (names : list string) : list (Ver * string) :=
  match names with
  | [] => []
  | dir_name :: rest =>
      match Ver_parse dir_name with
      | Some v => (v, dir_name) :: version_dirnames rest
      | None => version_dirnames rest           (* except ValueError: pass *)
      end
  end.

(** [x >= y] on [(Version, str)] tuples: by version, then by name. *)
Definition tuple_geb (x y : Ver * string) : bool :=
  match Ver_compare (fst x) (fst y) with
  | Gt => true
  | Lt => false
  | Eq => String.leb (snd y) (snd x)
  end.

Fixpoint insert_reverse (x : Ver * string) (l : list (Ver * string))
  : list (Ver * string) :=
  match l with
  | [] => [x]
  | h :: t => if tuple_geb x h then x :: h :: t else h :: insert_reverse x t
  end.

(** [l.sort(reverse=True)] *)
Definition sort_reverse (l : list (Ver * string)) : list (Ver * string) :=
  fold_right insert_reverse [] l.

(** [os.path.join(self._data_dir_root, self.name)], then the config's name
    when there is a config. *)
Definition builder_data_dir (cls : DatasetClass) (root : string)
    (builder_config : option BuilderConfig.t) : string :=
  let d := posixpath.join root (name cls) in
  match builder_config with
  | Some c => posixpath.join d (BuilderConfig.name c)
  | None => d
  end.

Definition _get_data_dir (cls : DatasetClass) (version : option Version)
  : M (option string) :=
  (* if version in (LATEST, AUTO): version = None *)
  let version :=
    match version with
    | Some (Explicit v) => Some v
    | Some LATEST | Some AUTO | None => None
    end in
  b <- get_self ;;
  let builder_data_dir :=
    builder_data_dir cls (_data_dir_root b) (_builder_config b) in
  match version with
  | Some v => ret (Some (posixpath.join builder_data_dir (Ver_str v)))
  | None =>
      disk <- get_fs ;;
      if negb (gfile.Exists disk builder_data_dir) then ret None
      else
        (* Get the highest version directory *)
        let version_dirnames :=
          version_dirnames (gfile.ListDirectory disk builder_data_dir) in
        match sort_reverse version_dirnames with
        | (_, highest_version_dir) :: _ =>
            ret (Some (posixpath.join builder_data_dir highest_version_dir))
        | [] => ret None                        (* No directory found *)
        end
  end.

(** *** [info] (memoized property)

    Modelled from the spec: [DatasetInfo] is not among the sources; of the
    object [self._info()] builds, only [info.version] is read here, and the
    build pipeline "compute[s] target DataDirectory from dataset
    name/config/resolved version": it is the builder's [_version].  The guard
    is the source's; the property is memoized, so the guard runs on the first
    access only, but no method puts [_version] back to [None] once [__init__]
    has started, and running it on every access changes nothing. *)
Definition info : M Ver :=
  b <- get_self ;;
  match _version b with
  | None => raise (AssertionError InfoBeforeVersion)
  | Some v => ret v
  end.

(** *** [_choose_version] *)
Definition _choose_version (requested_version : Version)
    (data_version : option Ver) (code_version : Ver) : M bool :=
  b <- get_self ;;
  (* 1. No data is found on disk (and mode is LATEST or AUTO) *)
  if negb (truthy data_version) && Version_in requested_version [AUTO; LATEST]
  then
    emit (LogNoPreviousData code_version) ;;
    ret true
  (* 2. Data is found but correspond to a previous version (LATEST mode) *)
  else if match data_version with
          | Some dv => Ver_ltb dv code_version
                       && Version_eqb requested_version LATEST
          | None => false
          end
  then
    match data_version with
    | Some dv => emit (LogIgnoringDataset dv code_version)
    | None => ret tt
    end ;;
    ret true
  else
    match data_version with
    (* 3. No data is found on disk (but version has been explicitly set) *)
    | None => raise (ValueError CouldNotFindRequestedVersion)
    (* 4. Data version defined and restored *)
    | Some dv =>
        emit (LogRestoring dv (_data_dir b)) ;;
        (if Ver_ltb dv code_version         (* code_version > data_version *)
         then emit (WarnBackwardCompatibility dv code_version)
         else ret tt) ;;
        if Ver_ltb code_version dv          (* code_version < data_version *)
        then raise (ValueError DataVersionHigherThanCode)
        else ret false
    end.

(** *** [_set_version] *)
Definition _set_version (cls : DatasetClass) (version : Version) : M unit :=
  b <- get_self ;;
  if negb (truthy (_builder_config b)) && negb (truthy (VERSION cls))
  then raise (AssertionError NoDefinedVersion)
  else
    (* Step 1: Extract code_version and data_version *)
    data_version <-
      (if path_truthy (_data_dir b)
       then match _data_dir b with
            | Some d => v <- Version_of_str (posixpath.basename d) ;; ret (Some v)
            | None => ret None
            end
       else ret None) ;;
    code_version <-
      match _builder_config b with
      | Some c => Version_of (BuilderConfig.version c)
      | None => Version_of (VERSION cls)
      end ;;
    (* Step 2: choose between the code version and the data version *)
    use_code <- _choose_version version data_version code_version ;;
    (* Step 3: Ensure that version wasn't set before this point *)
    b <- get_self ;;
    if truthy (_version b)                     (* self._version is not None *)
    then raise (AssertionError VersionAlreadyDefined)
    else
      (* Step 4: Set version either to code or data and restore DatasetInfo *)
      if use_code then
        set_version (Some code_version) ;;
        set_data_dir None ;;
        _ <- info ;;
        emit InfoInitializeFromPackageData
      else
        set_version data_version ;;
        _ <- info ;;
        b <- get_self ;;
        emit (InfoReadFromDirectory (_data_dir b)).

(** *** [__init__]

    [data_dir] is the root after [os.path.expanduser(data_dir or
    constants.DATA_DIR)]; [version] is [None] or a version. *)
Definition __init__ (cls : DatasetClass) (data_dir : string)
    (config : ConfigArg) (version : option Version) : M unit :=
  let version := match version with None => AUTO | Some v => v end in
  set_version None ;;
  c <- _create_builder_config cls config ;;
  set_builder_config c ;;
  set_data_dir_root data_dir ;;
  d <- _get_data_dir cls (Some version) ;;
  set_data_dir d ;;
  _set_version cls version.

(** An object before [__init__] has run on it. *)
Definition blank : DatasetBuilder := mkBuilder None None EmptyString None.

(** [cls(data_dir=..., config=..., version=...)] on a given disk: the outcome
    of the constructor; the builder is [self] of the state when it returned. *)
Definition construct (cls : DatasetClass) (disk : gfile.FileSystem)
    (data_dir : string) (config : ConfigArg) (version : option Version)
  : Outcome unit * State :=
  __init__ cls data_dir config version (mkState blank disk []).

(** *** [download_and_prepare] *)

(** [_make_download_manager]: reads [self.info.download_checksums] and
    builds the manager. *)
Definition _make_download_manager (mode : GenerateMode) : M unit :=
  _ <- info ;;
  emit (MakeDownloadManager (GenerateMode_eqb mode FORCE_REDOWNLOAD)).

(** [_log_download_bytes]: reads [self.info.size_in_bytes] and prints. *)
Definition _log_download_bytes : M unit :=
  _ <- info ;;
  b <- get_self ;;
  emit (PrintDownloading (_data_dir b)).

(** Modelled from the spec: [file_format_adapter.incomplete_dir] is not among
    the sources.  Spec 4.2, steps 3 and 6: "Acquire a scoped temporary
    directory sibling to the target", then "Commit: rename temporary directory
    to the final DataDirectory path".  The sibling's name is the target's
    with a suffix that keeps it from reading as a version. *)
Definition incomplete_dir_name (dirname : string) : string :=
  dirname ++ ".incomplete".

(** [download_and_prepare], with the collaborators called inside the two
    [with] blocks (the abstract [_download_and_prepare],
    [info.compute_dynamic_properties], [info.write_to_directory]) returning.
    What the builder and the disk are left with when one of them raises is
    decided by [utils.temporary_assignment] and
    [file_format_adapter.incomplete_dir], which are not among the sources:
    that path is not modelled, and no statement below is about it. *)
Definition download_and_prepare (cls : DatasetClass)
    (mode : option GenerateMode) (compute_stats : bool) : M unit :=
  let mode := match mode with
              | Some m => m
              | None => REUSE_DATASET_IF_EXISTS
              end in
  b <- get_self ;;
  if path_truthy (_data_dir b) && GenerateMode_eqb mode REUSE_DATASET_IF_EXISTS
  then
    emit (LogReusing (_data_dir b)) ;;
    ret tt
  else if path_truthy (_data_dir b)
  then raise (ValueError CannotGenerateAlreadyLoaded)
  else
    _make_download_manager mode ;;
    (* Create a new version in a new data_dir. *)
    v <- info ;;
    d <- _get_data_dir cls (Some (Explicit v)) ;;
    set_data_dir d ;;
    match d with
    | None => raise TypeError                   (* tf.gfile.Exists(None) *)
    | Some data_dir =>
        disk <- get_fs ;;
        if gfile.Exists disk data_dir
        then raise (ValueError OverwriteExistingDataset)
        else
          emit (LogGenerating data_dir) ;;
          _log_download_bytes ;;
          (* with file_format_adapter.incomplete_dir(self._data_dir) *)
          let tmp_data_dir := incomplete_dir_name data_dir in
          put_fs (gfile.MakeDirs disk tmp_data_dir) ;;
          (* with utils.temporary_assignment(self, "_data_dir", tmp_data_dir) *)
          set_data_dir (Some tmp_data_dir) ;;
          emit (CallDownloadAndPrepare (Some tmp_data_dir)) ;;
          (if compute_stats then emit InfoComputeDynamicProperties else ret tt) ;;
          emit (InfoWriteToDirectory (Some tmp_data_dir)) ;;
          set_data_dir (Some data_dir) ;;
          disk <- get_fs ;;
          put_fs (gfile.Rename disk tmp_data_dir data_dir)
    end.

(** *** The life of an instance after construction

    The calls that touch the version or the bound directory; an exception a
    call raises is the caller's to catch, the object stays as the call left
    it. *)
Inductive Call : Type :=
| Call_set_version (version : Version)
| Call_download_and_prepare (mode : option GenerateMode) (compute_stats : bool).

Definition call (cls : DatasetClass) (c : Call) : M unit :=
  match c with
  | Call_set_version v => _set_version cls v
  | Call_download_and_prepare m s => download_and_prepare cls m s
  end.

Fixpoint calls (cls : DatasetClass) (l : list Call) (st : State) : State :=
  match l with
  | [] => st
  | c :: l' => calls cls l' (snd (call cls c st))
  end.

(** ** flic.py

    Python compiles a module as a whole before it runs any of it: when one
    statement does not parse, [import] raises [SyntaxError] and none of the
    module's classes or methods comes to exist.  Two statements of flic.py do
    not parse, the display assigned to [descriptions] (l.50-53) and the
    [with] statement of [_split_generators] (l.99-100).  They are modelled by
    what the parser reads of them; the other statements of the module
    parse.  The method [_generate_examples] is modelled twice over: its text
    (l.124-137), and the call of it by a program, which goes through the
    import. *)

Module Flic.

(** *** The two statements, as the parser reads them *)

(** The tokens of a dict display of string literals. *)
Inductive Token : Type :=
| LBRACE
| RBRACE
| COLON
| COMMA
| STRING (s : string).

(** What follows a run of string literals. *)
Fixpoint after_strings (ts : list Token) : list Token :=
  match ts with
  | STRING _ :: ts' => after_strings ts'
  | _ => ts
  end.

(** An expression of such a display: one string literal, or several
    adjacent ones, which make one string.  The result is what follows the
    expression. *)
Definition expression (ts : list Token) : option (list Token) :=
  match ts with
  | STRING _ :: ts' => Some (after_strings ts')
  | _ => None
  end.

(** [key_datum ::= expression ":" expression] *)
Definition key_datum (ts : list Token) : option (list Token) :=
  match expression ts with
  | Some (COLON :: ts') => expression ts'
  | _ => None
  end.

(** What may follow the opening brace or a comma: the closing brace, or one
    more [key_datum] followed by a comma or by the closing brace. *)
Fixpoint key_datum_list (fuel : nat) (ts : list Token) : bool :=
  match fuel with
  | 0 => false
  | S fuel' =>
      match ts with
      | [RBRACE] => true
      | _ =>
          match key_datum ts with
          | Some [RBRACE] => true
          | Some (COMMA :: ts') => key_datum_list fuel' ts'
          | _ => false
          end
      end
  end.

(** [dict_display ::= "{" [key_datum ("," key_datum)* [","]] "}"] *)
Definition dict_display (ts : list Token) : bool :=
  match ts with
  | LBRACE :: ts' => key_datum_list (List.length ts') ts'
  | _ => false
  end.

(** The display assigned to [descriptions] in [FlicConfig.__init__],
    l.50-53: no comma ends l.51, and the second value starts with a tab. *)
Definition descriptions : list Token :=
  [ LBRACE;
    STRING "small"; COLON;
    STRING "5003 examples used in our CVPR13 MODEC paper.";
    STRING "full"; COLON;
    STRING (String "009"%char
      "20928 examples, a superset of FLIC consisting of more difficult examples.");
    RBRACE ].

(** The tokens of a display with a comma between its entries. *)
Fixpoint entries (kvs : list (string * string)) : list Token :=
  match kvs with
  | [] => [RBRACE]
  | (k, v) :: rest =>
      STRING k :: COLON :: STRING v
        :: match rest with
           | [] => [RBRACE]
           | _ :: _ => COMMA :: entries rest
           end
  end.

Definition display (kvs : list (string * string)) : list Token :=
  LBRACE :: entries kvs.

(** The line after the header of a compound statement starts its block, and
    has to be indented deeper than the header; the arguments are the columns
    at which the two lines start. *)
Definition indented_block (header body : nat) : bool :=
  Nat.ltb header body.

(** [compile]: whether the module compiles. *)
Definition compile : bool :=
  dict_display descriptions      (* l.50-53 *)
  && indented_block 4 4.         (* l.99 [with ... as f:] and l.100 [data = ...] *)

(** What a call of a generator of the module comes to, for a program that
    imports the module and makes the call. *)
Inductive Run (A : Type) : Type :=
| Yields (ys : A)
| SyntaxError.

Arguments Yields {A}.
Arguments SyntaxError {A}.

(** *** The text of [_generate_examples] *)

Section Examples.

(** The numeric type of the .mat file ([mat_dtype=True]) and its truth
    value. *)
Variable F : Type.
Variable F_truthy : F -> bool.

(** One entry of [data["examples"]]: a record read by position, fields 0 to
    8; field 2 holds the two rows of coordinates, field 4 is not read. *)
Record MatExample : Type := mkMat
  { ex0 : list N;
    ex1 : string;
    ex2 : list F * list F;
    ex3 : string;
    ex4 : list F;
    ex5 : F;
    ex6 : list F;
    ex7 : F;
    ex8 : F }.

(** The feature dictionary that is yielded. *)
Record Features : Type := mkFeatures
  { image : string;
    poselet_hit_idx : list N;
    moviename : string;
    xcoords : list F;
    ycoords : list F;
    currframe : F;
    torsobox : list F }.

Definition features_of (extract_path dir : string) (example : MatExample)
  : Features :=
  mkFeatures
    (posixpath.join_all extract_path [dir; "images"; ex3 example])
    (ex0 example)
    (ex1 example)
    (fst (ex2 example))
    (snd (ex2 example))
    (ex5 example)
    (ex6 example).

(** [if (example[7] and istrain) or (example[8] and istest)] *)
Definition selected (example : MatExample) (istrain istest : bool) : bool :=
  (F_truthy (ex7 example) && istrain) || (F_truthy (ex8 example) && istest).

(** The loop over [enumerate(examples)], from index [u_id] on: what the
    text of the method would yield, in order. *)
Fixpoint generate_from (extract_path dir : string) (u_id : nat)
    (examples : list MatExample) (istrain istest : bool)
  : list (nat * Features) :=
  match examples with
  | [] => []
  | example :: rest =>
      if selected example istrain istest
      then (u_id, features_of extract_path dir example)
             :: generate_from extract_path dir (S u_id) rest istrain istest
      else generate_from extract_path dir (S u_id) rest istrain istest
  end.

(** [_generate_examples], called by a program: [dir] is
    [self.builder_config.dir], [data] is [data["examples"]].  The method
    exists once the module is imported; when the module does not compile the
    import raises and nothing is yielded. *)
Definition _generate_examples (extract_path dir : string)
    (data : list MatExample) (istrain istest : bool)
  : Run (list (nat * Features)) :=
  if compile
  then Yields (generate_from extract_path dir 0 data istrain istest)
  else SyntaxError.

End Examples.

Arguments mkMat {F}.
Arguments ex0 {F}.
Arguments ex1 {F}.
Arguments ex2 {F}.
Arguments ex3 {F}.
Arguments ex4 {F}.
Arguments ex5 {F}.
Arguments ex6 {F}.
Arguments ex7 {F}.
Arguments ex8 {F}.
Arguments mkFeatures {F}.
Arguments features_of {F}.
Arguments selected {F}.
Arguments generate_from {F}.
Arguments _generate_examples {F}.

End Flic.

(** ** Notions the statements are phrased with *)

(** [c] occurs in [s]. *)
Fixpoint has_char (c : ascii) (s : string) : bool :=
  match s with
  | EmptyString => false
  | String a s' => Ascii.eqb a c || has_char c s'
  end.

(** The version the code declares: the active config's, else the class's. *)
Definition code_version_of (cls : DatasetClass)
    (builder_config : option BuilderConfig.t) : option Ver :=
  match builder_config with
  | Some c => BuilderConfig.version c
  | None => VERSION cls
  end.

(** What config validation makes of the [config] argument; it reads the
    class only. *)
Definition validated_config (cls : DatasetClass) (config : ConfigArg)
  : Outcome (option BuilderConfig.t) :=
  fst (_create_builder_config cls config (mkState blank [] [])).

(** The declared config of a given name, if any. *)
Definition declared (cls : DatasetClass) (n : string) : option BuilderConfig.t :=
  dict_get n (config_dict cls).

(** The versions among the names of a directory listing. *)
Definition valid_versions (names : list string) : list Ver :=
  flat_map (fun n => match Ver_parse n with
                     | Some v => [v]
                     | None => []
                     end) names.

Definition Ver_max (a b : Ver) : Ver := if Ver_ltb a b then b else a.

(** The newest version directory under [dir], absent when there is none. *)
Definition newest_on_disk (disk : gfile.FileSystem) (dir : string) : option Ver :=
  match valid_versions (gfile.ListDirectory disk dir) with
  | [] => None
  | v :: l => Some (fold_left Ver_max l v)
  end.

(** The on-disk version a request designates: the requested literal when its
    directory is there, the newest one for AUTO and LATEST. *)
Definition data_on_disk (disk : gfile.FileSystem) (dir : string)
    (requested : Version) : option Ver :=
  match requested with
  | Explicit v =>
      if gfile.Exists disk (posixpath.join dir (Ver_str v)) then Some v else None
  | AUTO | LATEST => newest_on_disk disk dir
  end.

(** The [version] argument after [__init__]'s default. *)
Definition requested_of (version : option Version) : Version :=
  match version with
  | None => AUTO
  | Some v => v
  end.

(** [s] starts with an element of [l] whose version none in [l] exceeds. *)
Definition headed_by_max (l s : list (Ver * string)) : Prop :=
  exists h t, s = h :: t /\ In h l
              /\ forall y, In y l -> Ver_leb (fst y) (fst h) = true.

(** The same state with the version attribute not yet set. *)
Definition unset_version (st : State) : State :=
  mkState (mkBuilder None (_builder_config (self st))
                     (_data_dir_root (self st)) (_data_dir (self st)))
          (fs st) (log st).

(** No name occurs twice. *)
Fixpoint distinct (l : list string) : bool :=
  match l with
  | [] => true
  | x :: l' => negb (existsb (String.eqb x) l') && distinct l'
  end.

(** ** Sample inputs *)

Definition v0_9_0 : Ver := mkVer 0 9 0.
Definition v1_0_0 : Ver := mkVer 1 0 0.
Definition v1_1_0 : Ver := mkVer 1 1 0.
Definition v2_0_0 : Ver := mkVer 2 0 0.

(** A dataset without configs, at code version 1.0.0. *)
Definition mnist : DatasetClass := mkClass "mnist" (Some v1_0_0) [].

(** The two configs [_make_builder_configs] of flic.py declares. *)
Definition flic_small : BuilderConfig.t :=
  BuilderConfig.mk 1 "small" (Some v2_0_0)
    (Some "Uses 5003 examples used in our CVPR13 MODEC paper.").

Definition flic_full : BuilderConfig.t :=
  BuilderConfig.mk 2 "full" (Some v2_0_0)
    (Some "Uses 20928 examples, a superset of FLIC consisting of more difficult examples.").

Definition flic : DatasetClass := mkClass "flic" None [flic_small; flic_full].

(** A config a caller builds anew with the attributes of [flic_small]. *)
Definition small_again : BuilderConfig.t :=
  BuilderConfig.mk 3 "small" (Some v2_0_0)
    (Some "Uses 5003 examples used in our CVPR13 MODEC paper.").

(** A class that declares a config without a description. *)
Definition plain : BuilderConfig.t :=
  BuilderConfig.mk 5 "plain" (Some v1_0_0) None.

Definition undescribed : DatasetClass := mkClass "undescribed" None [plain].

(** A disk holding one older build of mnist. *)
Definition disk_0_9_0 : gfile.FileSystem := [["data"; "mnist"; "0.9.0"]].

(** A disk holding one build of mnist from newer code. *)
Definition disk_1_1_0 : gfile.FileSystem := [["data"; "mnist"; "1.1.0"]].

(** A fresh mnist builder on an empty disk, and the state after its first
    [download_and_prepare()]. *)
Definition fresh_mnist : State :=
  snd (construct mnist [] "/data" ConfigNone None).

Definition built_mnist : State :=
  snd (download_and_prepare mnist None true fresh_mnist).

(** A disk holding the current build of mnist, and the builder the
    constructor binds to it. *)
Definition disk_1_0_0 : gfile.FileSystem := [["data"; "mnist"; "1.0.0"]].

Definition restored_mnist : State :=
  snd (construct mnist disk_1_0_0 "/data" ConfigNone None).

(** A second fresh builder, made before the first one committed, looking at
    the disk after it. *)
Definition late_mnist : State :=
  mkState (self fresh_mnist) (fs built_mnist) [].

(** A FLIC record marked for the train set only; numbers stand for the .mat
    doubles. *)
Definition N_truthy (x : N) : bool := negb (N.eqb x 0).

Definition in_train : Flic.MatExample N :=
  Flic.mkMat [2%N] "movie" ([11%N], [21%N]) "b.jpg" [] 8%N [1%N; 2%N; 3%N; 4%N] 1%N 0%N.

(** ** [as_dataset]

    The pipeline [as_dataset] assembles, by the [tf.data] calls it makes in
    order; what each call computes is TensorFlow's business. *)
Inductive DatasetOp : Type :=
| AsDataset (split : string) (shuffle_files : bool)   (* self._as_dataset(split=..., shuffle_files=...) *)
| PaddedBatch (batch_size : Z)                        (* dataset.padded_batch(batch_size, padded_shapes) *)
| MapSupervised (input_f target_f : string)           (* dataset.map(lambda fs: (fs[input_f], fs[target_f])) *)
| Prefetch                                            (* dataset.prefetch(AUTOTUNE) *)
| WithOptions (experimental_deterministic : bool).    (* dataset.with_options(options) *)

(** What [as_dataset] raises: its own two errors, or the guard of [info]. *)
Inductive ReadError : Type :=
| CouldNotFindData            (* AssertionError "Dataset %s: could not find data in %s. Please make sure to call dataset_builder.download_and_prepare()" *)
| NotSupervised               (* ValueError "as_supervised=True but %s does not support a supervised (input, label) structure." *)
| InfoNotReady.               (* AssertionError of [info] *)

Section AsDataset.

(** The name of [splits.Split.TRAIN] and [self.info.supervised_keys], which
    come from modules that are not among the sources. *)
Variable TRAIN : string.
Variable supervised_keys : option (string * string).

Definition as_dataset (b : DatasetBuilder) (split : string) (batch_size : Z)
    (shuffle_files : option bool) (as_supervised : bool)
  : ReadError + list DatasetOp :=
  if negb (path_truthy (_data_dir b)) then inl CouldNotFindData
  else
    let shuffle_files :=
      match shuffle_files with
      | None => String.eqb split TRAIN          (* Shuffle files if training *)
      | Some f => f
      end in
    let dataset := [AsDataset split shuffle_files] in
    match (if Z.ltb 1 batch_size            (* batch_size > 1 *)
           then match _version b with               (* self.info.features.shape *)
                | None => inl InfoNotReady
                | Some _ => inr (dataset ++ [PaddedBatch batch_size])
                end
           else inr dataset) with
    | inl e => inl e
    | inr dataset =>
        match (if as_supervised
               then match _version b with           (* self.info.supervised_keys *)
                    | None => inl InfoNotReady
                    | Some _ =>
                        match supervised_keys with
                        | None => inl NotSupervised
                        | Some (input_f, target_f) =>
                            inr (dataset ++ [MapSupervised input_f target_f])
                        end
                    end
               else inr dataset) with
        | inl e => inl e
        | inr dataset =>
            inr (dataset ++ [Prefetch; WithOptions (negb shuffle_files)])
        end
    end.

End AsDataset.

(** ** [GeneratorBasedBuilder]: file names and read instructions *)

Module GeneratorBasedBuilder.

(** [SplitInfo], by the two attributes read here. *)
Record SplitInfo : Type := mkSplitInfo
  { split_name : string;
    num_shards : nat }.

Section Instructions.

(** [naming.filepaths_for_dataset_split], [splits.slice_to_percent_mask] and
    the adapter's [filetype_suffix] come from modules that are not among the
    sources; so do the types of slices and masks. *)
Variables Slice Mask : Type.
Variable filepaths_for_dataset_split :
  string -> string -> nat -> option string -> string -> list string.
Variable slice_to_percent_mask : Slice -> Mask.
Variable filetype_suffix : string.

(** [SlicedSplitInfo] *)
Record SlicedSplitInfo : Type := mkSliced
  { split_info : SplitInfo;
    slice_value : Slice }.

(** [_build_split_filenames] *)
Fixpoint _build_split_filenames (cls : DatasetClass) (b : DatasetBuilder)
    (split_info_list : list SplitInfo) : list string :=
  match split_info_list with
  | [] => []
  | split_info :: rest =>
      filepaths_for_dataset_split (name cls) (split_name split_info)
        (num_shards split_info) (_data_dir b) filetype_suffix
      ++ _build_split_filenames cls b rest
  end.

(** [_slice_split_info_to_instruction_dicts]: each dict by its two items,
    ["filepath"] and ["mask"]. *)
Fixpoint _slice_split_info_to_instruction_dicts (cls : DatasetClass)
    (b : DatasetBuilder) (list_sliced_split_info : list SlicedSplitInfo)
  : list (string * Mask) :=
  match list_sliced_split_info with
  | [] => []
  | sliced_split_info :: rest =>
      map (fun filepath =>
             (filepath, slice_to_percent_mask (slice_value sliced_split_info)))
          (_build_split_filenames cls b [split_info sliced_split_info])
      ++ _slice_split_info_to_instruction_dicts cls b rest
  end.

End Instructions.

Arguments mkSliced {Slice}.
Arguments split_info {Slice}.
Arguments slice_value {Slice}.
Arguments _slice_split_info_to_instruction_dicts {Slice Mask}.

End GeneratorBasedBuilder.

(** ** Further notions for the statements *)

(** The log lines config validation emits. *)
Definition validation_log (cls : DatasetClass) (config : ConfigArg)
  : list Event :=
  log (snd (_create_builder_config cls config (mkState blank [] []))).

(** The path of the version directory of [v] for a builder. *)
Definition version_dir (cls : DatasetClass) (b : DatasetBuilder) (v : Ver)
  : string :=
  posixpath.join
    (builder_data_dir cls (_data_dir_root b) (_builder_config b)) (Ver_str v).

(** A sample class with a repeated config name. *)
Definition repeated : DatasetClass :=
  mkClass "repeated" None [flic_small; small_again].

(** A config under a name the class does not declare, without version. *)
Definition mine : BuilderConfig.t := BuilderConfig.mk 7 "mine" None None.

(* ================================================================== *)
(** * Part II: lemmas and theorems *)
(* ================================================================== *)

(** ** Strings and paths *)

Lemma split_on_not_nil (c : ascii) (s : string) : posixpath.split_on c s <> [].
Proof.
  destruct s as [|a s]; simpl; [discriminate|].
  destruct (Ascii.eqb a c); [discriminate|].
  destruct (posixpath.split_on c s); discriminate.
Qed.

Lemma split_on_app (c : ascii) (s t : string) :
  posixpath.split_on c (s ++ String c t)
  = removelast (posixpath.split_on c s)
    ++ [last (posixpath.split_on c s) EmptyString]
    ++ posixpath.split_on c t.
Proof.
  rewrite app_assoc, <- app_removelast_last by apply split_on_not_nil.
  induction s as [|a s IH]; simpl.
  - rewrite Ascii.eqb_refl. reflexivity.
  - destruct (Ascii.eqb a c).
    + rewrite IH. reflexivity.
    + rewrite IH.
      pose proof (split_on_not_nil c s) as Hne.
      destruct (posixpath.split_on c s) as [|h l]; [contradiction|].
      reflexivity.
Qed.

Lemma split_on_absent (c : ascii) (s : string) :
  has_char c s = false -> posixpath.split_on c s = [s].
Proof.
  induction s as [|a s IH]; simpl; [reflexivity|].
  intros H. apply orb_false_iff in H as [Ha Hs].
  rewrite Ha, (IH Hs). reflexivity.
Qed.

Lemma last_split_on_app (c : ascii) (s t : string) :
  has_char c t = false ->
  last (posixpath.split_on c (s ++ String c t)) EmptyString = t.
Proof.
  intros H. rewrite split_on_app, (split_on_absent _ _ H).
  rewrite app_assoc. apply last_last.
Qed.

Lemma endswith_sep_inv (a : string) :
  posixpath.endswith_sep a = true ->
  exists a', a = (a' ++ String posixpath.sep EmptyString)%string.
Proof.
  induction a as [|x a IH]; simpl; [discriminate|].
  destruct a as [|y a].
  - intros H. apply Ascii.eqb_eq in H. subst x. exists EmptyString. reflexivity.
  - intros H. destruct (IH H) as [a' Ha']. exists (String x a').
    simpl. rewrite <- Ha'. reflexivity.
Qed.

Lemma append_assoc (a b c : string) :
  ((a ++ b) ++ c = a ++ (b ++ c))%string.
Proof. induction a as [|x a IH]; simpl; [reflexivity | now rewrite IH]. Qed.

(** The base name of a path joined with a name is that name. *)
Lemma basename_join (a n : string) :
  has_char posixpath.sep n = false ->
  posixpath.basename (posixpath.join a n) = n.
Proof.
  intros Hn. unfold posixpath.basename, posixpath.join.
  destruct (posixpath.startswith_sep n) eqn:Hs.
  - destruct n as [|x n]; simpl in *; [discriminate|].
    rewrite Hs in Hn. discriminate.
  - destruct (String.eqb a EmptyString) eqn:Ha; simpl.
    + apply String.eqb_eq in Ha. subst a. simpl.
      rewrite (split_on_absent _ _ Hn). reflexivity.
    + destruct (posixpath.endswith_sep a) eqn:He.
      * destruct (endswith_sep_inv _ He) as [a' ->].
        rewrite append_assoc. simpl. now apply last_split_on_app.
      * now apply last_split_on_app.
Qed.

Lemma join_not_empty (a n : string) :
  n <> EmptyString -> posixpath.join a n <> EmptyString.
Proof.
  intros Hn. unfold posixpath.join.
  destruct (posixpath.startswith_sep n); [assumption|].
  destruct (String.eqb a EmptyString || posixpath.endswith_sep a);
    destruct a; simpl; try discriminate; assumption.
Qed.

(** ** Version literals *)

Lemma digit_is_not (c a : ascii) (d d' : uint) :
  uint_of_char c (Some Nil) = None ->
  uint_of_char a (Some d) = Some d' ->
  Ascii.eqb a c = false.
Proof.
  intros Hc Ha. destruct (Ascii.eqb_spec a c) as [->|]; [|reflexivity].
  apply uint_of_char_spec in Ha.
  repeat (destruct Ha as [[-> _]|Ha]; [discriminate Hc|]).
  destruct Ha as [-> _]. discriminate Hc.
Qed.

Lemma digits_have_no (c : ascii) (s : string) :
  uint_of_char c (Some Nil) = None ->
  NilEmpty.uint_of_string s <> None ->
  has_char c s = false.
Proof.
  intros Hc. induction s as [|a s IH]; simpl; [reflexivity|].
  destruct (NilEmpty.uint_of_string s) as [d|] eqn:Hs; [|intros H; now elim H].
  intros H. destruct (uint_of_char a (Some d)) as [d'|] eqn:Ha; [|now elim H].
  rewrite (digit_is_not c a d d' Hc Ha). simpl. apply IH. discriminate.
Qed.

Lemma NilZero_NilEmpty (s : string) (d : uint) :
  NilZero.uint_of_string s = Some d -> NilEmpty.uint_of_string s = Some d.
Proof. destruct s; [discriminate | trivial]. Qed.

Lemma N_str_digits (n : N) : NilEmpty.uint_of_string (N_str n) <> None.
Proof.
  unfold N_str, NilZero.string_of_uint.
  destruct (N.to_uint n); try discriminate; rewrite NilEmpty.usu; discriminate.
Qed.

Lemma N_str_parse (n : N) :
  exists d, NilZero.uint_of_string (N_str n) = Some d /\ N.of_uint d = n.
Proof.
  unfold N_str.
  destruct (NilZero.usu_gen (N.to_uint n)) as [H|H]; rewrite H.
  - eexists; split; [reflexivity|]. apply DecimalN.Unsigned.of_to.
  - eexists; split; [reflexivity|].
    destruct (N.to_uint n) eqn:E;
      try (rewrite NilZero.usu in H by discriminate; injection H as H;
           rewrite <- H, <- E; apply DecimalN.Unsigned.of_to).
    rewrite <- (DecimalN.Unsigned.of_to n), E. reflexivity.
Qed.

(** [utils.Version(str(v))] is [v]. *)
Lemma Ver_parse_str (v : Ver) : Ver_parse (Ver_str v) = Some v.
Proof.
  destruct v as [a b c]. unfold Ver_parse, Ver_str. cbn [major minor patch].
  assert (Hdot : uint_of_char "."%char (Some Nil) = None) by reflexivity.
  pose proof (digits_have_no _ _ Hdot (N_str_digits a)) as Ha.
  pose proof (digits_have_no _ _ Hdot (N_str_digits b)) as Hb.
  pose proof (digits_have_no _ _ Hdot (N_str_digits c)) as Hc.
  change (N_str a ++ "." ++ N_str b ++ "." ++ N_str c)%string
    with (N_str a ++ String "."%char (N_str b ++ String "."%char (N_str c)))%string.
  rewrite !split_on_app.
  rewrite (split_on_absent _ _ Ha), (split_on_absent _ _ Hb),
          (split_on_absent _ _ Hc).
  cbn [removelast last Datatypes.app].
  destruct (N_str_parse a) as [x [-> <-]].
  destruct (N_str_parse b) as [y [-> <-]].
  destruct (N_str_parse c) as [z [-> <-]].
  reflexivity.
Qed.

Lemma pieces_have_no_sep (n : string) :
  Forall (fun p => NilEmpty.uint_of_string p <> None)
         (posixpath.split_on "."%char n) ->
  has_char posixpath.sep n = false.
Proof.
  induction n as [|a n IH]; simpl; [reflexivity|].
  destruct (Ascii.eqb a "."%char) eqn:Ea.
  - intros H. inversion H as [|? ? _ Ht]; subst.
    apply Ascii.eqb_eq in Ea. subst a. simpl. now apply IH.
  - pose proof (split_on_not_nil "."%char n) as Hne.
    destruct (posixpath.split_on "."%char n) as [|h t]; [contradiction|].
    intros H. inversion H as [|? ? Hh Ht]; subst. simpl in Hh.
    destruct (NilEmpty.uint_of_string h) as [d|] eqn:Eh; [|now elim Hh].
    destruct (uint_of_char a (Some d)) as [d'|] eqn:Ed; [|now elim Hh].
    rewrite (digit_is_not posixpath.sep a d d' eq_refl Ed). simpl.
    apply IH. constructor; [rewrite Eh; discriminate | assumption].
Qed.

(** A name that reads as a version holds no separator and is not empty. *)
Lemma Ver_parse_name (n : string) (v : Ver) :
  Ver_parse n = Some v ->
  has_char posixpath.sep n = false /\ n <> EmptyString.
Proof.
  intros H. split.
  - apply pieces_have_no_sep. unfold Ver_parse in H.
    destruct (posixpath.split_on "."%char n) as [|a [|b [|c [|? ?]]]];
      try discriminate.
    destruct (NilZero.uint_of_string a) eqn:Ea; try discriminate.
    destruct (NilZero.uint_of_string b) eqn:Eb; try discriminate.
    destruct (NilZero.uint_of_string c) eqn:Ec; try discriminate.
    apply NilZero_NilEmpty in Ea, Eb, Ec.
    repeat constructor; congruence.
  - intros ->. discriminate H.
Qed.

Lemma Ver_parse_basename_join (a n : string) (v : Ver) :
  Ver_parse n = Some v ->
  Ver_parse (posixpath.basename (posixpath.join a n)) = Some v
  /\ path_truthy (Some (posixpath.join a n)) = true.
Proof.
  intros H. destruct (Ver_parse_name _ _ H) as [Hs Hn]. split.
  - now rewrite basename_join.
  - simpl. apply negb_true_iff, String.eqb_neq. now apply join_not_empty.
Qed.

(** ** The order on versions *)

Ltac ver_order :=
  unfold Ver_leb, Ver_ltb, Ver_eqb, Ver_compare in *;
  repeat match goal with
         | v : Ver |- _ => destruct v
         end;
  cbn [major minor patch] in *;
  repeat match goal with
         | |- context [N.compare ?x ?y] => destruct (N.compare_spec x y); subst
         | H : context [N.compare ?x ?y] |- _ =>
             destruct (N.compare_spec x y); subst
         end;
  try reflexivity; try discriminate; try congruence; try lia.

Lemma Ver_compare_eq (a b : Ver) : Ver_compare a b = Eq -> a = b.
Proof. intros H. ver_order. Qed.

Lemma Ver_compare_refl (a : Ver) : Ver_compare a a = Eq.
Proof. ver_order. Qed.

Lemma Ver_leb_antisym (a b : Ver) :
  Ver_leb a b = true -> Ver_leb b a = true -> a = b.
Proof. intros H1 H2. ver_order. Qed.

Lemma Ver_leb_trans (a b c : Ver) :
  Ver_leb a b = true -> Ver_leb b c = true -> Ver_leb a c = true.
Proof. intros H1 H2. ver_order. Qed.

Lemma Ver_leb_refl (a : Ver) : Ver_leb a a = true.
Proof. ver_order. Qed.

Lemma Ver_ltb_leb (a b : Ver) : Ver_ltb a b = true -> Ver_leb a b = true.
Proof. intros H. ver_order. Qed.

Lemma Ver_not_ltb_leb (a b : Ver) : Ver_ltb a b = false -> Ver_leb b a = true.
Proof. intros H. ver_order. Qed.

Lemma Ver_ltb_asym (a b : Ver) : Ver_ltb a b = true -> Ver_ltb b a = false.
Proof. intros H. ver_order. Qed.

Lemma Ver_ltb_irrefl (a : Ver) : Ver_ltb a a = false.
Proof. ver_order. Qed.

Lemma tuple_geb_leb (x y : Ver * string) :
  tuple_geb x y = true -> Ver_leb (fst y) (fst x) = true.
Proof.
  unfold tuple_geb. destruct x as [v n], y as [w m]. cbn [fst snd].
  destruct (Ver_compare v w) eqn:E; try discriminate; intros _.
  - apply Ver_compare_eq in E. subst. apply Ver_leb_refl.
  - revert E. ver_order.
Qed.

Lemma tuple_not_geb_leb (x y : Ver * string) :
  tuple_geb x y = false -> Ver_leb (fst x) (fst y) = true.
Proof.
  unfold tuple_geb, Ver_leb. destruct (Ver_compare (fst x) (fst y));
    [reflexivity | reflexivity | discriminate].
Qed.

(** ** The highest version directory *)

Lemma insert_reverse_not_nil (x : Ver * string) (l : list (Ver * string)) :
  insert_reverse x l <> [].
Proof. destruct l; simpl; [|destruct (tuple_geb x p)]; discriminate. Qed.

Lemma sort_reverse_head (l : list (Ver * string)) :
  l <> [] -> headed_by_max l (sort_reverse l).
Proof.
  induction l as [|x l IH]; [congruence|]. intros _. simpl.
  destruct l as [|x' l'].
  - simpl. exists x, []. repeat split; [now left|].
    intros y [<-|[]]. apply Ver_leb_refl.
  - destruct IH as (h & t & Hs & Hin & Hmax); [discriminate|].
    rewrite Hs. simpl. destruct (tuple_geb x h) eqn:E.
    + exists x, (h :: t). repeat split; [now left|].
      intros y [<-|Hy]; [apply Ver_leb_refl|].
      apply Ver_leb_trans with (fst h); [now apply Hmax|].
      now apply tuple_geb_leb.
    + exists h, (insert_reverse x t). repeat split; [now right|].
      intros y [<-|Hy]; [now apply tuple_not_geb_leb | now apply Hmax].
Qed.

Lemma sort_reverse_nil (l : list (Ver * string)) :
  sort_reverse l = [] -> l = [].
Proof.
  destruct l as [|x l]; [reflexivity|]. simpl. intros H.
  now apply insert_reverse_not_nil in H.
Qed.

Lemma version_dirnames_In (names : list string) (v : Ver) (n : string) :
  In (v, n) (version_dirnames names) -> In n names /\ Ver_parse n = Some v.
Proof.
  induction names as [|d names IH]; simpl; [tauto|].
  destruct (Ver_parse d) eqn:E.
  - intros [H|H]; [injection H as <- <-; auto | destruct (IH H); auto].
  - intros H. destruct (IH H); auto.
Qed.

Lemma version_dirnames_versions (names : list string) :
  map fst (version_dirnames names) = valid_versions names.
Proof.
  induction names as [|d names IH]; simpl; [reflexivity|].
  destruct (Ver_parse d); simpl; now rewrite IH.
Qed.

Lemma fold_Ver_max (l : list Ver) (v : Ver) :
  In (fold_left Ver_max l v) (v :: l)
  /\ forall w, In w (v :: l) -> Ver_leb w (fold_left Ver_max l v) = true.
Proof.
  revert v. induction l as [|x l IH]; intros v; simpl.
  - split; [now left|]. intros w [<-|[]]. apply Ver_leb_refl.
  - destruct (IH (Ver_max v x)) as [Hin Hmax]. split.
    + destruct Hin as [H|H]; [|now right; right].
      rewrite <- H. unfold Ver_max. destruct (Ver_ltb v x); auto.
    + assert (Hv : Ver_leb v (Ver_max v x) = true).
      { unfold Ver_max. destruct (Ver_ltb v x) eqn:E;
          [now apply Ver_ltb_leb | apply Ver_leb_refl]. }
      assert (Hx : Ver_leb x (Ver_max v x) = true).
      { unfold Ver_max. destruct (Ver_ltb v x) eqn:E;
          [apply Ver_leb_refl | now apply Ver_not_ltb_leb]. }
      intros w [<-|[<-|Hw]].
      * eapply Ver_leb_trans; [exact Hv | apply Hmax; now left].
      * eapply Ver_leb_trans; [exact Hx | apply Hmax; now left].
      * apply Hmax. now right.
Qed.

(** The head of the sorted listing carries the newest version on disk. *)
Lemma highest_version_dir (disk : gfile.FileSystem) (dir : string) (v : Ver) :
  newest_on_disk disk dir = Some v ->
  exists n rest,
    sort_reverse (version_dirnames (gfile.ListDirectory disk dir))
    = (v, n) :: rest
    /\ Ver_parse n = Some v.
Proof.
  unfold newest_on_disk. intros H.
  set (names := gfile.ListDirectory disk dir) in *.
  pose proof (version_dirnames_versions names) as Hmap.
  destruct (valid_versions names) as [|v0 l] eqn:Ev; [discriminate|].
  injection H as H.
  destruct (fold_Ver_max l v0) as [Hin Hmax]. rewrite H in Hin, Hmax.
  destruct (sort_reverse_head (version_dirnames names))
    as ([w n] & t & Hs & Hh & Hm).
  { intros E. rewrite E in Hmap. discriminate. }
  assert (w = v) as ->.
  { apply Ver_leb_antisym.
    - apply Hmax. rewrite <- Hmap. now apply (in_map fst) in Hh.
    - rewrite <- Hmap in Hin. apply in_map_iff in Hin as ([v' n'] & <- & Hi).
      now apply (Hm _ Hi). }
  exists n, t. split; [assumption|].
  now apply version_dirnames_In in Hh.
Qed.

Lemma no_version_dir (disk : gfile.FileSystem) (dir : string) :
  newest_on_disk disk dir = None ->
  sort_reverse (version_dirnames (gfile.ListDirectory disk dir)) = [].
Proof.
  unfold newest_on_disk. intros H.
  pose proof (version_dirnames_versions (gfile.ListDirectory disk dir)) as Hm.
  destruct (valid_versions (gfile.ListDirectory disk dir)); [|discriminate].
  destruct (version_dirnames (gfile.ListDirectory disk dir)); [|discriminate].
  reflexivity.
Qed.

(** ** The disk *)

Lemma dedup_In (n : string) (l : list string) :
  In n (gfile.dedup l) -> In n l.
Proof.
  induction l as [|x l IH]; simpl; [tauto|].
  destruct (existsb (String.eqb x) l); simpl; intuition.
Qed.

(** A directory that lists a name exists. *)
Lemma listed_dir_exists (disk : gfile.FileSystem) (dir n : string) :
  In n (gfile.ListDirectory disk dir) -> gfile.Exists disk dir = true.
Proof.
  unfold gfile.ListDirectory, gfile.Exists. intros H.
  apply dedup_In, in_flat_map in H as (q & Hq & Hn).
  apply existsb_exists. exists q. split; [assumption|].
  unfold gfile.is_under.
  destruct (gfile.strip_prefix (posixpath.components dir) q); [reflexivity|].
  destruct Hn.
Qed.

Lemma newest_dir_exists (disk : gfile.FileSystem) (dir : string) (v : Ver) :
  newest_on_disk disk dir = Some v -> gfile.Exists disk dir = true.
Proof.
  intros H. destruct (highest_version_dir _ _ _ H) as (n & t & Hs & _).
  assert (Hin : In (v, n) (version_dirnames (gfile.ListDirectory disk dir))).
  { destruct (sort_reverse_head (version_dirnames (gfile.ListDirectory disk dir)))
      as (h & t' & Hs' & Hh & _).
    - intros E. rewrite E in Hs. discriminate.
    - rewrite Hs in Hs'. injection Hs' as <- _. exact Hh. }
  apply version_dirnames_In in Hin as [Hin _].
  now apply listed_dir_exists in Hin.
Qed.

(** ** Running the methods *)

Ltac unfold_py :=
  unfold _set_version, _choose_version, _get_data_dir, download_and_prepare,
    _make_download_manager, _log_download_bytes, info, builder_configs,
    Version_of, Version_of_str, bind, ret, raise, emit, get_self, get_fs,
    put_fs, set_version, set_data_dir, set_builder_config, set_data_dir_root
    in *.

Ltac step_py :=
  cbn [fst snd self fs log _version _builder_config _data_dir _data_dir_root
       truthy negb andb orb] in *.

Ltac run_py := unfold_py; step_py.

Lemma state_eta (st : State) :
  mkState (mkBuilder (_version (self st)) (_builder_config (self st))
                     (_data_dir_root (self st)) (_data_dir (self st)))
          (fs st) (log st) = st.
Proof. destruct st as [[? ? ? ?] ? ?]. reflexivity. Qed.

(** [_get_data_dir] returns and leaves the state alone. *)
Lemma get_data_dir_explicit (cls : DatasetClass) (v : Ver) (st : State) :
  _get_data_dir cls (Some (Explicit v)) st
  = (Return (Some (posixpath.join
                     (builder_data_dir cls (_data_dir_root (self st))
                                       (_builder_config (self st)))
                     (Ver_str v))), st).
Proof. reflexivity. Qed.

Lemma get_data_dir_newest (cls : DatasetClass) (version : option Version)
    (st : State) (v : Ver) :
  (forall x, version <> Some (Explicit x)) ->
  newest_on_disk (fs st)
    (builder_data_dir cls (_data_dir_root (self st)) (_builder_config (self st)))
  = Some v ->
  exists n,
    _get_data_dir cls version st
    = (Return (Some (posixpath.join
                       (builder_data_dir cls (_data_dir_root (self st))
                                         (_builder_config (self st))) n)), st)
    /\ Ver_parse n = Some v.
Proof.
  intros Hv Hn.
  destruct (highest_version_dir _ _ _ Hn) as (n & t & Hs & Hp).
  exists n. split; [|assumption].
  pose proof (newest_dir_exists _ _ _ Hn) as He.
  destruct version as [[| |x]|]; try (now elim (Hv x));
    run_py; rewrite He, Hs; reflexivity.
Qed.

Lemma get_data_dir_none (cls : DatasetClass) (version : option Version)
    (st : State) :
  (forall x, version <> Some (Explicit x)) ->
  newest_on_disk (fs st)
    (builder_data_dir cls (_data_dir_root (self st)) (_builder_config (self st)))
  = None ->
  _get_data_dir cls version st = (Return None, st).
Proof.
  intros Hv Hn. pose proof (no_version_dir _ _ Hn) as Hs.
  destruct version as [[| |x]|]; try (now elim (Hv x));
    run_py; rewrite Hs;
    destruct (gfile.Exists _ _); reflexivity.
Qed.

Lemma get_data_dir_returns (cls : DatasetClass) (version : option Version)
    (st : State) :
  exists d, _get_data_dir cls version st = (Return d, st).
Proof.
  assert (Hx : (exists x, version = Some (Explicit x))
               \/ forall x, version <> Some (Explicit x)).
  { destruct version as [[| |x]|]; try (right; discriminate). left; eauto. }
  destruct Hx as [[x ->]|Hx]; [eexists; apply get_data_dir_explicit|].
  destruct (newest_on_disk (fs st)
              (builder_data_dir cls (_data_dir_root (self st))
                                (_builder_config (self st)))) eqn:E.
  - destruct (get_data_dir_newest cls version st v Hx E) as (n & Hn & _).
    rewrite Hn. eauto.
  - rewrite (get_data_dir_none cls version st Hx E). eauto.
Qed.

(** Config validation reads the class only and writes the log only. *)
Lemma create_builder_config_state (cls : DatasetClass) (config : ConfigArg)
    (st : State) :
  exists l,
    _create_builder_config cls config st
    = (validated_config cls config, mkState (self st) (fs st) (log st ++ l)).
Proof.
  unfold validated_config, _create_builder_config.
  destruct st as [b disk lg].
  destruct config as [|n|c]; destruct (BUILDER_CONFIGS cls) as [|c0 rest] eqn:Ecfgs;
    run_py; rewrite ?Ecfgs;
    repeat match goal with
           | |- context [if ?b then _ else _] => destruct b eqn:?
           | |- context [match dict_get ?n ?d with _ => _ end] =>
               destruct (dict_get n d) eqn:?
           end;
    cbn [fst snd];
    try (exists []; rewrite app_nil_r; reflexivity);
    try (eexists; reflexivity).
Qed.

(** ** [_set_version], case by case *)

Lemma first_check_passes (cls : DatasetClass) (cfg : option BuilderConfig.t)
    (code : Ver) :
  code_version_of cls cfg = Some code ->
  negb (truthy cfg) && negb (truthy (VERSION cls)) = false.
Proof.
  destruct cfg as [c|]; simpl; [reflexivity|]. now intros ->.
Qed.

Ltac set_version_cases Hcode :=
  unfold _set_version; unfold_py;
  cbn [fst snd self fs log _version _builder_config _data_dir _data_dir_root];
  rewrite (first_check_passes _ _ _ Hcode);
  cbn [path_truthy];
  repeat match goal with
         | H : negb (String.eqb _ _) = _ |- _ => rewrite H
         | H : path_truthy _ = _ |- _ => rewrite H
         | H : Ver_parse _ = _ |- _ => rewrite H
         end;
  unfold code_version_of in Hcode;
  match goal with
  | cfg : option BuilderConfig.t |- _ => destruct cfg
  end;
  rewrite Hcode;
  cbn [fst snd self fs log _version _builder_config _data_dir _data_dir_root
       truthy negb andb].

(** No usable directory, AUTO or LATEST: the code version, nothing bound. *)
Lemma set_version_no_data (cls : DatasetClass) (version : Version)
    (cfg : option BuilderConfig.t) (root : string) (d : option string)
    (disk : gfile.FileSystem) (lg : list Event) (code : Ver) :
  code_version_of cls cfg = Some code ->
  path_truthy d = false ->
  Version_in version [AUTO; LATEST] = true ->
  _set_version cls version (mkState (mkBuilder None cfg root d) disk lg)
  = (Return tt,
     mkState (mkBuilder (Some code) cfg root None) disk
             (lg ++ [LogNoPreviousData code; InfoInitializeFromPackageData])).
Proof.
  intros Hcode Hd Hv. set_version_cases Hcode;
    rewrite Hv; cbn; rewrite <- app_assoc; reflexivity.
Qed.

(** LATEST and an older directory: the code version, the directory dropped. *)
Lemma set_version_ignores_older (cls : DatasetClass)
    (cfg : option BuilderConfig.t) (root p : string)
    (disk : gfile.FileSystem) (lg : list Event) (code dv : Ver) :
  code_version_of cls cfg = Some code ->
  negb (String.eqb p EmptyString) = true ->
  Ver_parse (posixpath.basename p) = Some dv ->
  Ver_ltb dv code = true ->
  _set_version cls LATEST (mkState (mkBuilder None cfg root (Some p)) disk lg)
  = (Return tt,
     mkState (mkBuilder (Some code) cfg root None) disk
             (lg ++ [LogIgnoringDataset dv code; InfoInitializeFromPackageData])).
Proof.
  intros Hcode Hp Hdv Hlt. set_version_cases Hcode;
    rewrite Hlt; cbn; rewrite <- app_assoc; reflexivity.
Qed.

(** A directory newer than the code: refused, whatever was requested and
    whatever the version attribute holds. *)
Lemma set_version_newer_data (cls : DatasetClass)
    (cfg : option BuilderConfig.t) (root p : string)
    (disk : gfile.FileSystem) (lg : list Event) (code dv : Ver)
    (ver : option Ver) (version : Version) :
  code_version_of cls cfg = Some code ->
  negb (String.eqb p EmptyString) = true ->
  Ver_parse (posixpath.basename p) = Some dv ->
  Ver_ltb code dv = true ->
  _set_version cls version (mkState (mkBuilder ver cfg root (Some p)) disk lg)
  = (Raise StaleCodeError,
     mkState (mkBuilder ver cfg root (Some p)) disk
             (lg ++ [LogRestoring dv (Some p)])).
Proof.
  intros Hcode Hp Hdv Hlt. set_version_cases Hcode;
    rewrite Hlt, (Ver_ltb_asym _ _ Hlt); cbn; reflexivity.
Qed.

(** A directory older than the code, not under LATEST: restored, with the
    warning. *)
Lemma set_version_restores_older (cls : DatasetClass)
    (cfg : option BuilderConfig.t) (root p : string)
    (disk : gfile.FileSystem) (lg : list Event) (code dv : Ver)
    (version : Version) :
  code_version_of cls cfg = Some code ->
  negb (String.eqb p EmptyString) = true ->
  Ver_parse (posixpath.basename p) = Some dv ->
  Version_eqb version LATEST = false ->
  Ver_ltb dv code = true ->
  _set_version cls version (mkState (mkBuilder None cfg root (Some p)) disk lg)
  = (Return tt,
     mkState (mkBuilder (Some dv) cfg root (Some p)) disk
             (lg ++ [LogRestoring dv (Some p);
                     WarnBackwardCompatibility dv code;
                     InfoReadFromDirectory (Some p)])).
Proof.
  intros Hcode Hp Hdv Hv Hlt. set_version_cases Hcode;
    rewrite Hv, Hlt, (Ver_ltb_asym _ _ Hlt), andb_false_r;
    cbn; rewrite <- !app_assoc; reflexivity.
Qed.

(** A directory at the code's version: restored, no warning. *)
Lemma set_version_restores_same (cls : DatasetClass)
    (cfg : option BuilderConfig.t) (root p : string)
    (disk : gfile.FileSystem) (lg : list Event) (code : Ver)
    (version : Version) :
  code_version_of cls cfg = Some code ->
  negb (String.eqb p EmptyString) = true ->
  Ver_parse (posixpath.basename p) = Some code ->
  _set_version cls version (mkState (mkBuilder None cfg root (Some p)) disk lg)
  = (Return tt,
     mkState (mkBuilder (Some code) cfg root (Some p)) disk
             (lg ++ [LogRestoring code (Some p);
                     InfoReadFromDirectory (Some p)])).
Proof.
  intros Hcode Hp Hdv. set_version_cases Hcode;
    rewrite !Ver_ltb_irrefl; cbn; rewrite <- !app_assoc; reflexivity.
Qed.

(** ** [__init__], step by step *)

(** A config that fails validation fails the constructor. *)
Lemma construct_config_error (cls : DatasetClass) (disk : gfile.FileSystem)
    (root : string) (config : ConfigArg) (version : option Version)
    (e : Exception) :
  validated_config cls config = Raise e ->
  exists st, construct cls disk root config version = (Raise e, st).
Proof.
  intros Hv. unfold construct, __init__.
  unfold bind at 1, set_version at 1. cbn [fst snd self fs log].
  unfold bind at 1.
  match goal with
  | |- context [_create_builder_config cls config ?s] =>
      destruct (create_builder_config_state cls config s) as [l Hl]
  end.
  rewrite Hl, Hv. eauto.
Qed.

(** With a validated config the constructor is [_set_version] on the
    directory [_get_data_dir] found. *)
Lemma construct_after_config (cls : DatasetClass) (disk : gfile.FileSystem)
    (root : string) (config : ConfigArg) (version : option Version)
    (cfg : option BuilderConfig.t) :
  validated_config cls config = Return cfg ->
  exists l d,
    _get_data_dir cls (Some (requested_of version))
                  (mkState (mkBuilder None cfg root None) disk l)
    = (Return d, mkState (mkBuilder None cfg root None) disk l)
    /\ construct cls disk root config version
       = _set_version cls (requested_of version)
                      (mkState (mkBuilder None cfg root d) disk l).
Proof.
  intros Hv. unfold construct, __init__.
  unfold bind at 1, set_version at 1. cbn [fst snd self fs log].
  unfold bind at 1.
  match goal with
  | |- context [_create_builder_config cls config ?s] =>
      destruct (create_builder_config_state cls config s) as [l Hl]
  end.
  rewrite Hl, Hv. cbn [fst snd self fs log app].
  unfold bind at 1, set_builder_config at 1. cbn [fst snd self fs log].
  unfold bind at 1, set_data_dir_root at 1. cbn [fst snd self fs log].
  cbn [_version _builder_config _data_dir_root _data_dir blank].
  unfold bind at 1.
  fold (requested_of version).
  match goal with
  | |- context [_get_data_dir cls ?v ?s] =>
      destruct (get_data_dir_returns cls v s) as [d Hd]
  end.
  exists l, d. split; [exact Hd|].
  rewrite Hd. unfold bind at 1, set_data_dir at 1. reflexivity.
Qed.

(** The directory a request designates on disk is the one [_get_data_dir]
    returns, and its base name reads back as the version. *)
Lemma designated_dir (cls : DatasetClass) (requested : Version) (st : State)
    (dv : Ver) :
  data_on_disk (fs st)
    (builder_data_dir cls (_data_dir_root (self st)) (_builder_config (self st)))
    requested = Some dv ->
  exists p,
    _get_data_dir cls (Some requested) st = (Return (Some p), st)
    /\ negb (String.eqb p EmptyString) = true
    /\ Ver_parse (posixpath.basename p) = Some dv.
Proof.
  intros H.
  assert (Hnewest :
    newest_on_disk (fs st)
      (builder_data_dir cls (_data_dir_root (self st))
                        (_builder_config (self st))) = Some dv ->
    forall version, (forall x, version <> Some (Explicit x)) ->
    exists p,
      _get_data_dir cls version st = (Return (Some p), st)
      /\ negb (String.eqb p EmptyString) = true
      /\ Ver_parse (posixpath.basename p) = Some dv).
  { intros Hn version Hx.
    destruct (get_data_dir_newest cls version st dv Hx Hn) as (n & Hg & Hp).
    eexists. split; [exact Hg|].
    destruct (Ver_parse_basename_join
                (builder_data_dir cls (_data_dir_root (self st))
                                  (_builder_config (self st))) n dv Hp); auto. }
  destruct requested as [| |v]; cbn [data_on_disk] in H.
  - apply (Hnewest H). discriminate.
  - apply (Hnewest H). discriminate.
  - destruct (gfile.Exists _ _); [|discriminate]. injection H as ->.
    eexists. split; [apply get_data_dir_explicit|].
    destruct (Ver_parse_basename_join
                (builder_data_dir cls (_data_dir_root (self st))
                                  (_builder_config (self st)))
                (Ver_str dv) dv (Ver_parse_str dv)); auto.
Qed.

Lemma Version_eqb_LATEST (version : Version) :
  version <> LATEST -> Version_eqb version LATEST = false.
Proof. destruct version; [reflexivity | congruence | reflexivity]. Qed.

(** ** Version resolution: the claims *)

(** C3.  A builder requested at LATEST whose newest on-disk version is
    strictly below the code's declared version takes the code version and is
    left without a data directory: the constructor returns, [_version] is the
    code version, [_data_dir] is [None], the disk is untouched, and the log
    ends with the "Ignoring dataset" line. *)
Theorem C3_latest_ignores_older_data
    (cls : DatasetClass) (disk : gfile.FileSystem) (root : string)
    (config : ConfigArg) (cfg : option BuilderConfig.t) (code v : Ver) :
  validated_config cls config = Return cfg ->
  code_version_of cls cfg = Some code ->
  newest_on_disk disk (builder_data_dir cls root cfg) = Some v ->
  Ver_ltb v code = true ->
  exists l,
    construct cls disk root config (Some LATEST)
    = (Return tt,
       mkState (mkBuilder (Some code) cfg root None) disk
               (l ++ [LogIgnoringDataset v code; InfoInitializeFromPackageData])).
Proof.
  intros Hcfg Hcode Hnew Hlt.
  destruct (construct_after_config cls disk root config (Some LATEST) cfg Hcfg)
    as (l & d & Hd & ->).
  cbn [requested_of] in *.
  destruct (designated_dir cls LATEST
              (mkState (mkBuilder None cfg root None) disk l) v Hnew)
    as (p & Hg & Hp & Hv).
  rewrite Hg in Hd. injection Hd as <-.
  exists l. now apply set_version_ignores_older with (dv := v).
Qed.

Lemma C3_latest_ignores_older_data_witness :
  exists l,
    construct mnist disk_0_9_0 "/data" ConfigNone (Some LATEST)
    = (Return tt,
       mkState (mkBuilder (Some v1_0_0) None "/data" None) disk_0_9_0
               (l ++ [LogIgnoringDataset v0_9_0 v1_0_0;
                      InfoInitializeFromPackageData])).
Proof.
  apply (C3_latest_ignores_older_data mnist disk_0_9_0 "/data" ConfigNone
           None v1_0_0 v0_9_0); reflexivity.
Defined.

(** C4.  A builder whose request designates on-disk data of a version
    strictly above the code's declared version is refused with
    [StaleCodeError]: the constructor raises, so no builder comes out of it;
    the version attribute was never set and the disk is untouched. *)
Theorem C4_newer_data_is_stale_code
    (cls : DatasetClass) (disk : gfile.FileSystem) (root : string)
    (config : ConfigArg) (version : option Version)
    (cfg : option BuilderConfig.t) (code dv : Ver) :
  validated_config cls config = Return cfg ->
  code_version_of cls cfg = Some code ->
  data_on_disk disk (builder_data_dir cls root cfg) (requested_of version)
  = Some dv ->
  Ver_ltb code dv = true ->
  exists st,
    construct cls disk root config version = (Raise StaleCodeError, st)
    /\ _version (self st) = None
    /\ fs st = disk.
Proof.
  intros Hcfg Hcode Hdata Hlt.
  destruct (construct_after_config cls disk root config version cfg Hcfg)
    as (l & d & Hd & ->).
  destruct (designated_dir cls (requested_of version)
              (mkState (mkBuilder None cfg root None) disk l) dv Hdata)
    as (p & Hg & Hp & Hv).
  rewrite Hg in Hd. injection Hd as <-.
  rewrite (set_version_newer_data cls cfg root p disk l code dv None
             (requested_of version) Hcode Hp Hv Hlt).
  eexists. repeat split.
Qed.

Lemma C4_newer_data_is_stale_code_witness :
  exists st,
    construct mnist disk_1_1_0 "/data" ConfigNone (Some AUTO)
    = (Raise StaleCodeError, st)
    /\ _version (self st) = None
    /\ fs st = disk_1_1_0.
Proof.
  apply (C4_newer_data_is_stale_code mnist disk_1_1_0 "/data" ConfigNone
           (Some AUTO) None v1_0_0 v1_1_0); reflexivity.
Defined.

(** C5.  A builder whose request (AUTO or an explicit version: under LATEST
    older data is not resolved to, see C3) designates on-disk data of a
    version strictly below the code's declared version is built on that data:
    the constructor returns without raising, the backward-compatibility
    warning is in the log, [_version] is the on-disk version and [_data_dir]
    is its directory. *)
Theorem C5_older_data_restored_with_warning
    (cls : DatasetClass) (disk : gfile.FileSystem) (root : string)
    (config : ConfigArg) (version : option Version)
    (cfg : option BuilderConfig.t) (code dv : Ver) :
  validated_config cls config = Return cfg ->
  code_version_of cls cfg = Some code ->
  data_on_disk disk (builder_data_dir cls root cfg) (requested_of version)
  = Some dv ->
  requested_of version <> LATEST ->
  Ver_ltb dv code = true ->
  exists st p,
    construct cls disk root config version = (Return tt, st)
    /\ _version (self st) = Some dv
    /\ _data_dir (self st) = Some p
    /\ Ver_parse (posixpath.basename p) = Some dv
    /\ In (WarnBackwardCompatibility dv code) (log st)
    /\ fs st = disk.
Proof.
  intros Hcfg Hcode Hdata Hreq Hlt.
  destruct (construct_after_config cls disk root config version cfg Hcfg)
    as (l & d & Hd & ->).
  destruct (designated_dir cls (requested_of version)
              (mkState (mkBuilder None cfg root None) disk l) dv Hdata)
    as (p & Hg & Hp & Hv).
  rewrite Hg in Hd. injection Hd as <-.
  rewrite (set_version_restores_older cls cfg root p disk l code dv
             (requested_of version) Hcode Hp Hv
             (Version_eqb_LATEST _ Hreq) Hlt).
  eexists. exists p. repeat split; try assumption.
  cbn [log]. apply in_or_app. right. simpl. auto.
Qed.

Lemma C5_older_data_restored_with_warning_witness :
  exists st p,
    construct mnist disk_0_9_0 "/data" ConfigNone (Some AUTO) = (Return tt, st)
    /\ _version (self st) = Some v0_9_0
    /\ _data_dir (self st) = Some p
    /\ Ver_parse (posixpath.basename p) = Some v0_9_0
    /\ In (WarnBackwardCompatibility v0_9_0 v1_0_0) (log st)
    /\ fs st = disk_0_9_0.
Proof.
  apply (C5_older_data_restored_with_warning mnist disk_0_9_0 "/data"
           ConfigNone (Some AUTO) None v1_0_0 v0_9_0);
    try reflexivity; discriminate.
Defined.

(** The decision table does refuse an explicit request without data ... *)
Lemma choose_version_explicit_absent (v code : Ver) (st : State) :
  _choose_version (Explicit v) None code st = (Raise VersionNotFoundError, st).
Proof. reflexivity. Qed.

Lemma Ver_trichotomy (a b : Ver) :
  Ver_ltb a b = false -> Ver_ltb b a = true \/ a = b.
Proof.
  unfold Ver_ltb. destruct (Ver_compare a b) eqn:E; try discriminate; intros _.
  - right. now apply Ver_compare_eq.
  - left. revert E. ver_order.
Qed.

(** ... but the constructor never gets there: for an explicit request
    [_get_data_dir] hands back the path of the version's directory without
    looking at the disk, so unless the code is older than the request the
    constructor returns bound to that path, on every disk. *)
Lemma explicit_request_binds_on_any_disk
    (cls : DatasetClass) (disk : gfile.FileSystem) (root : string)
    (config : ConfigArg) (cfg : option BuilderConfig.t) (code v : Ver) :
  validated_config cls config = Return cfg ->
  code_version_of cls cfg = Some code ->
  Ver_ltb code v = false ->
  exists st,
    construct cls disk root config (Some (Explicit v)) = (Return tt, st)
    /\ _version (self st) = Some v
    /\ _data_dir (self st)
       = Some (posixpath.join (builder_data_dir cls root cfg) (Ver_str v)).
Proof.
  intros Hcfg Hcode Hlt.
  destruct (construct_after_config cls disk root config (Some (Explicit v))
              cfg Hcfg) as (l & d & Hd & ->).
  cbn [requested_of] in *. rewrite get_data_dir_explicit in Hd.
  injection Hd as <-. cbn [self _data_dir_root _builder_config].
  destruct (Ver_parse_basename_join (builder_data_dir cls root cfg)
              (Ver_str v) v (Ver_parse_str v)) as [Hv Hp].
  cbn [path_truthy] in Hp.
  destruct (Ver_trichotomy _ _ Hlt) as [Hlt'| ->].
  - rewrite (set_version_restores_older cls cfg root _ disk l code v
               (Explicit v) Hcode Hp Hv eq_refl Hlt').
    eexists. repeat split.
  - rewrite (set_version_restores_same cls cfg root _ disk l v
               (Explicit v) Hcode Hp Hv).
    eexists. repeat split.
Qed.

(** C1 (the code departs from the claim).  mnist declares 1.0.0, the disk is
    empty, version 0.9.0 is requested: no directory for 0.9.0 exists, yet the
    constructor returns, bound to the path of that directory and at version
    0.9.0, after the "Restoring" line and the backward-compatibility warning;
    it does not raise [VersionNotFoundError]. *)
Theorem C1_explicit_absent_version_is_bound :
  gfile.Exists [] "/data/mnist/0.9.0" = false
  /\ construct mnist [] "/data" ConfigNone (Some (Explicit v0_9_0))
     = (Return tt,
        mkState (mkBuilder (Some v0_9_0) None "/data"
                           (Some "/data/mnist/0.9.0"))
                []
                [LogRestoring v0_9_0 (Some "/data/mnist/0.9.0");
                 WarnBackwardCompatibility v0_9_0 v1_0_0;
                 InfoReadFromDirectory (Some "/data/mnist/0.9.0")]).
Proof. split; reflexivity. Qed.

(** ** [download_and_prepare]: the claims *)

(** C2, as amended.  On a builder bound to a data directory,
    [download_and_prepare] never generates: under a mode other than
    REUSE_DATASET_IF_EXISTS it raises [AlreadyBoundError] and leaves the
    state as it was; under REUSE_DATASET_IF_EXISTS, which is also the default
    mode, it logs "Reusing dataset" and returns. *)
Theorem C2_bound_builder_reuses_or_refuses
    (cls : DatasetClass) (st : State) (mode : option GenerateMode)
    (compute_stats : bool) :
  path_truthy (_data_dir (self st)) = true ->
  download_and_prepare cls mode compute_stats st
  = match mode with
    | Some FORCE_REDOWNLOAD | Some REUSE_CACHE_IF_EXISTS =>
        (Raise AlreadyBoundError, st)
    | Some REUSE_DATASET_IF_EXISTS | None =>
        (Return tt,
         mkState (self st) (fs st)
                 (log st ++ [LogReusing (_data_dir (self st))]))
    end.
Proof.
  intros Hb. unfold download_and_prepare; unfold_py.
  cbn [fst snd self]. rewrite Hb.
  destruct mode as [[| |]|]; reflexivity.
Qed.

Lemma C2_bound_builder_reuses_or_refuses_witness :
  download_and_prepare mnist (Some FORCE_REDOWNLOAD) true built_mnist
  = (Raise AlreadyBoundError, built_mnist).
Proof.
  apply (C2_bound_builder_reuses_or_refuses mnist built_mnist
           (Some FORCE_REDOWNLOAD) true).
  reflexivity.
Defined.

(** C2 as stated fails: on the mnist builder that the constructor bound to
    the existing directory of version 1.0.0, [download_and_prepare()] returns
    ("Reusing dataset") instead of raising, the first time and the second
    time; so does the second call on the builder that has just generated its
    data. *)
Lemma C2_second_call_returns :
  _data_dir (self restored_mnist) = Some "/data/mnist/1.0.0"
  /\ gfile.Exists (fs restored_mnist) "/data/mnist/1.0.0" = true
  /\ fst (download_and_prepare mnist None true restored_mnist) = Return tt
  /\ download_and_prepare mnist None true
       (snd (download_and_prepare mnist None true restored_mnist))
     = (Return tt,
        mkState (self restored_mnist) (fs restored_mnist)
                (log restored_mnist
                 ++ [LogReusing (Some "/data/mnist/1.0.0");
                     LogReusing (Some "/data/mnist/1.0.0")]))
  /\ fst (download_and_prepare mnist None true built_mnist) = Return tt
  /\ Return tt <> @Raise unit AlreadyBoundError.
Proof. repeat split; try reflexivity. discriminate. Qed.

(** The first call on an unbound builder whose target is free generates and
    leaves the builder bound to the target. *)
Lemma first_call_binds (cls : DatasetClass) (st : State)
    (mode : option GenerateMode) (compute_stats : bool) (v : Ver) :
  path_truthy (_data_dir (self st)) = false ->
  _version (self st) = Some v ->
  gfile.Exists (fs st)
    (posixpath.join
       (builder_data_dir cls (_data_dir_root (self st))
                         (_builder_config (self st))) (Ver_str v)) = false ->
  exists st',
    download_and_prepare cls mode compute_stats st = (Return tt, st')
    /\ _version (self st') = Some v
    /\ _data_dir (self st')
       = Some (posixpath.join
                 (builder_data_dir cls (_data_dir_root (self st))
                                   (_builder_config (self st))) (Ver_str v))
    /\ path_truthy (_data_dir (self st')) = true.
Proof.
  intros Hu Hv He. destruct st as [[ver cfg root d] disk lg].
  cbn [self fs _version _data_dir _data_dir_root _builder_config] in *.
  subst ver.
  unfold download_and_prepare; unfold_py.
  cbn [fst snd self fs log _version _builder_config _data_dir _data_dir_root].
  rewrite Hu. step_py. rewrite He.
  destruct compute_stats; cbn [fst snd self fs log _version _data_dir];
    (eexists; repeat split;
     destruct (Ver_parse_basename_join (builder_data_dir cls root cfg)
                 (Ver_str v) v (Ver_parse_str v)) as [_ Hp]; exact Hp).
Qed.

(** C6.  On an unbound builder whose target directory, computed from its
    version, already exists on disk, [download_and_prepare] raises
    [VersionCollisionError]: the disk is left as it was and the log gains the
    creation of the download manager only, no generation call. *)
Theorem C6_collision_before_generation
    (cls : DatasetClass) (st : State) (mode : option GenerateMode)
    (compute_stats : bool) (v : Ver) :
  path_truthy (_data_dir (self st)) = false ->
  _version (self st) = Some v ->
  gfile.Exists (fs st)
    (posixpath.join
       (builder_data_dir cls (_data_dir_root (self st))
                         (_builder_config (self st))) (Ver_str v)) = true ->
  exists st' force,
    download_and_prepare cls mode compute_stats st
    = (Raise VersionCollisionError, st')
    /\ fs st' = fs st
    /\ log st' = log st ++ [MakeDownloadManager force]
    /\ existsb is_generation [MakeDownloadManager force] = false
    /\ _version (self st') = Some v.
Proof.
  intros Hu Hv He. destruct st as [[ver cfg root d] disk lg].
  cbn [self fs _version _data_dir _data_dir_root _builder_config] in *.
  subst ver.
  unfold download_and_prepare; unfold_py.
  cbn [fst snd self fs log _version _builder_config _data_dir _data_dir_root].
  rewrite Hu. step_py. rewrite He.
  eexists. eexists. repeat split.
Qed.

Lemma C6_collision_before_generation_witness :
  exists st' force,
    download_and_prepare mnist None true late_mnist
    = (Raise VersionCollisionError, st')
    /\ fs st' = fs late_mnist
    /\ log st' = log late_mnist ++ [MakeDownloadManager force]
    /\ existsb is_generation [MakeDownloadManager force] = false
    /\ _version (self st') = Some v1_0_0.
Proof.
  apply (C6_collision_before_generation mnist late_mnist None true v1_0_0);
    reflexivity.
Defined.

(** ** The version of an instance *)

Ltac split_cases :=
  repeat (step_py;
          match goal with
          | |- context [if ?b then _ else _] => destruct b eqn:?
          | |- context [match ?x with Some _ => _ | None => _ end] =>
              destruct x eqn:?
          end);
  step_py.

(** A repeated [_set_version] raises what a first one would have raised in
    steps 1 and 2, else the assertion of step 3; the builder and the disk
    stay as they were. *)
Lemma set_version_again (cls : DatasetClass) (st : State) (version : Version)
    (v : Ver) :
  _version (self st) = Some v ->
  exists e st',
    _set_version cls version st = (Raise e, st')
    /\ self st' = self st
    /\ fs st' = fs st
    /\ e = match fst (_set_version cls version (unset_version st)) with
           | Return _ => AssertionError VersionAlreadyDefined
           | Raise e0 => e0
           end.
Proof.
  intros Hv. destruct st as [[ver cfg root d] disk lg].
  cbn [self _version] in Hv. subst ver.
  unfold unset_version, _set_version; unfold_py.
  cbn [fst snd self fs log _version _builder_config _data_dir _data_dir_root].
  split_cases; eexists; eexists; repeat split.
Qed.

Lemma download_and_prepare_keeps_version (cls : DatasetClass) (st : State)
    (mode : option GenerateMode) (compute_stats : bool) :
  _version (self (snd (download_and_prepare cls mode compute_stats st)))
  = _version (self st).
Proof.
  destruct st as [[ver cfg root d] disk lg].
  unfold download_and_prepare; unfold_py.
  cbn [fst snd self fs log _version _builder_config _data_dir _data_dir_root].
  destruct (path_truthy d); cbn [andb].
  - destruct (GenerateMode_eqb _ _); reflexivity.
  - destruct ver as [v|]; [|reflexivity].
    cbn [fst snd self fs log _version _builder_config _data_dir _data_dir_root].
    destruct (gfile.Exists _ _); [reflexivity|].
    destruct compute_stats; reflexivity.
Qed.

Lemma call_keeps_version (cls : DatasetClass) (c : Call) (st : State) (v : Ver) :
  _version (self st) = Some v ->
  _version (self (snd (call cls c st))) = Some v.
Proof.
  intros Hv. destruct c as [version|mode stats]; cbn [call].
  - destruct (set_version_again cls st version v Hv) as (e & st' & -> & Hs & _).
    cbn [snd]. now rewrite Hs.
  - now rewrite download_and_prepare_keeps_version.
Qed.

(** C7, as amended.  Once the version of an instance is set, every further
    [_set_version] raises and changes neither the builder nor the disk: it
    raises the [AssertionError] of step 3 when steps 1 and 2, which run again
    first, go through, and otherwise the error those steps raise (the one a
    first evaluation in the same circumstances would have raised); and no
    sequence of [_set_version] and [download_and_prepare] calls changes the
    version. *)
Theorem C7_version_is_set_once
    (cls : DatasetClass) (st : State) (v : Ver) :
  _version (self st) = Some v ->
  (forall version,
      exists e st',
        _set_version cls version st = (Raise e, st')
        /\ self st' = self st
        /\ fs st' = fs st
        /\ e = match fst (_set_version cls version (unset_version st)) with
               | Return _ => AssertionError VersionAlreadyDefined
               | Raise e0 => e0
               end)
  /\ (forall l, _version (self (calls cls l st)) = Some v).
Proof.
  intros Hv. split.
  - intros version. now apply set_version_again with (v := v).
  - intros l. revert st Hv. induction l as [|c l IH]; intros st Hv.
    + exact Hv.
    + cbn [calls]. apply IH. now apply call_keeps_version.
Qed.

Lemma C7_version_is_set_once_witness :
  (forall version,
      exists e st',
        _set_version mnist version fresh_mnist = (Raise e, st')
        /\ self st' = self fresh_mnist
        /\ fs st' = fs fresh_mnist
        /\ e = match fst (_set_version mnist version
                                       (unset_version fresh_mnist)) with
               | Return _ => AssertionError VersionAlreadyDefined
               | Raise e0 => e0
               end)
  /\ (forall l, _version (self (calls mnist l fresh_mnist)) = Some v1_0_0).
Proof.
  apply (C7_version_is_set_once mnist fresh_mnist v1_0_0). reflexivity.
Defined.

(** C7 as stated fails: on the fresh mnist builder (empty disk, version set
    to 1.0.0 by the constructor) a second [_set_version], asking for 0.9.0,
    runs the decision again and raises its [ValueError] ("Could not find the
    requested version"), not an [AssertionError]; with AUTO the decision runs
    again too, logging a second "No previous data found" line before the
    assertion. *)
Lemma C7_second_evaluation_raises_value_error :
  _version (self fresh_mnist) = Some v1_0_0
  /\ fst (_set_version mnist (Explicit v0_9_0) fresh_mnist)
     = Raise VersionNotFoundError
  /\ is_AssertionError VersionNotFoundError = false
  /\ _set_version mnist AUTO fresh_mnist
     = (Raise (AssertionError VersionAlreadyDefined),
        mkState (self fresh_mnist) (fs fresh_mnist)
                (log fresh_mnist ++ [LogNoPreviousData v1_0_0])).
Proof. repeat split. Qed.

(** ** Builder configs *)

Lemma dict_set_fresh (k : string) (v : BuilderConfig.t) (d : dict) :
  ~ In k (map fst d) -> dict_set k v d = d ++ [(k, v)].
Proof.
  induction d as [|[k' v'] d IH]; simpl; [reflexivity|].
  intros H. destruct (String.eqb_spec k k') as [->|Hne].
  - elim H. now left.
  - rewrite IH; [reflexivity|]. intros Hin. apply H. now right.
Qed.

Lemma fold_dict_set_length (configs : list BuilderConfig.t) (d : dict) :
  NoDup (map fst d ++ map BuilderConfig.name configs) ->
  List.length
    (fold_left (fun d c => dict_set (BuilderConfig.name c) c d) configs d)
  = List.length d + List.length configs.
Proof.
  revert d. induction configs as [|c configs IH]; intros d Hnd; simpl.
  - now rewrite Nat.add_0_r.
  - assert (Hfresh : ~ In (BuilderConfig.name c) (map fst d)).
    { simpl in Hnd. apply NoDup_remove_2 in Hnd.
      intros Hin. apply Hnd. apply in_or_app. now left. }
    rewrite (dict_set_fresh _ _ _ Hfresh), IH.
    + rewrite length_app. simpl. lia.
    + rewrite map_app. simpl. rewrite <- app_assoc. exact Hnd.
Qed.

Lemma distinct_NoDup (l : list string) : distinct l = true -> NoDup l.
Proof.
  induction l as [|x l IH]; simpl; [constructor|].
  intros H. apply andb_true_iff in H as [Hx Hl].
  constructor; [|now apply IH].
  intros Hin. apply negb_true_iff in Hx.
  assert (existsb (String.eqb x) l = true); [|congruence].
  apply existsb_exists. exists x. split; [assumption | apply String.eqb_refl].
Qed.

(** [builder_configs] returns on a class whose config names are distinct. *)
Lemma builder_configs_returns (cls : DatasetClass) (st : State) :
  NoDup (map BuilderConfig.name (BUILDER_CONFIGS cls)) ->
  builder_configs cls st = (Return (config_dict cls), st).
Proof.
  intros Hnd. unfold builder_configs.
  replace (List.length (config_dict cls))
    with (List.length (BUILDER_CONFIGS cls)).
  - now rewrite Nat.eqb_refl.
  - unfold config_dict. now rewrite fold_dict_set_length.
Qed.

Lemma builder_configs_cases (cls : DatasetClass) (st : State) :
  builder_configs cls st = (Return (config_dict cls), st)
  \/ builder_configs cls st = (Raise (ValueError DuplicatedConfigNames), st).
Proof.
  unfold builder_configs.
  destruct (Nat.eqb _ _); [left | right]; reflexivity.
Qed.

(** Validation of a config object whose name a declared config bears. *)
Lemma validate_declared_name (cls : DatasetClass)
    (bc available : BuilderConfig.t) :
  declared cls (BuilderConfig.name bc) = Some available ->
  BuilderConfig.name bc <> EmptyString ->
  validated_config cls (ConfigObj bc)
  = match fst (builder_configs cls (mkState blank [] [])) with
    | Raise e => Raise e
    | Return _ =>
        if negb (is_ bc available)
        then Raise (ValueError CustomConfigNamedAsAvailable)
        else if negb (truthy (BuilderConfig.version bc))
        then Raise (ValueError BuilderConfigMustHaveVersion)
        else if negb (str_truthy (BuilderConfig.description bc))
        then Raise (ValueError BuilderConfigMustHaveDescription)
        else Return (Some bc)
    end.
Proof.
  intros Hdecl Hname. unfold declared in Hdecl.
  apply String.eqb_neq in Hname.
  unfold validated_config, _create_builder_config.
  unfold bind at 1. unfold ret at 1. rewrite Hname.
  unfold bind at 1.
  destruct (builder_configs_cases cls (mkState blank [] [])) as [H|H];
    rewrite H; cbn [fst snd]; [|reflexivity].
  rewrite Hdecl.
  destruct (negb (is_ bc available)); [reflexivity|].
  destruct (negb (truthy (BuilderConfig.version bc))); [reflexivity|].
  destruct (negb (str_truthy (BuilderConfig.description bc))); reflexivity.
Qed.

(** C8, as amended.  For a config object with a name that a config declared
    by the class bears: the constructor raises a [ValueError] when the object
    has no version, or no (or an empty) description, or is not the declared
    config object itself; validation accepts it when it is the declared
    object and has both (the class's config names being distinct). *)
Theorem C8_declared_config_needs_version_and_description
    (cls : DatasetClass) (bc available : BuilderConfig.t) :
  declared cls (BuilderConfig.name bc) = Some available ->
  BuilderConfig.name bc <> EmptyString ->
  (BuilderConfig.version bc = None
   \/ str_truthy (BuilderConfig.description bc) = false
   \/ is_ bc available = false ->
   forall disk root version,
   exists m st,
     construct cls disk root (ConfigObj bc) version = (Raise (ValueError m), st))
  /\ (distinct (map BuilderConfig.name (BUILDER_CONFIGS cls)) = true ->
      is_ bc available = true ->
      BuilderConfig.version bc <> None ->
      str_truthy (BuilderConfig.description bc) = true ->
      forall st,
        _create_builder_config cls (ConfigObj bc) st = (Return (Some bc), st)).
Proof.
  intros Hdecl Hname.
  pose proof (validate_declared_name cls bc available Hdecl Hname) as Hval.
  split.
  - intros Hbad disk root version.
    assert (Hr : exists m, validated_config cls (ConfigObj bc)
                           = Raise (ValueError m)).
    { rewrite Hval.
      destruct (builder_configs_cases cls (mkState blank [] [])) as [H|H];
        rewrite H; cbn [fst]; [|eauto].
      destruct (is_ bc available); cbn [negb]; [|eauto].
      destruct (BuilderConfig.version bc); cbn [truthy negb]; [|eauto].
      destruct (str_truthy (BuilderConfig.description bc)); cbn [negb]; [|eauto].
      destruct Hbad as [H'|[H'|H']]; discriminate H'. }
    destruct Hr as [m Hm].
    destruct (construct_config_error cls disk root (ConfigObj bc) version _ Hm)
      as [st Hst].
    eauto.
  - intros Hnd His Hver Hdesc st. apply distinct_NoDup in Hnd.
    destruct (create_builder_config_state cls (ConfigObj bc) st) as [l Hl].
    assert (Hok : validated_config cls (ConfigObj bc) = Return (Some bc)).
    { rewrite Hval, (builder_configs_returns cls _ Hnd). cbn [fst].
      rewrite His, Hdesc. cbn [negb].
      destruct (BuilderConfig.version bc); [reflexivity | now elim Hver]. }
    rewrite Hok in Hl.
    assert (l = []) as ->.
    { revert Hl. unfold _create_builder_config.
      unfold bind at 1. unfold ret at 1.
      rewrite (proj2 (String.eqb_neq _ _) Hname).
      unfold bind at 1. rewrite (builder_configs_returns cls _ Hnd).
      unfold declared in Hdecl. rewrite Hdecl, His, Hdesc. cbn [negb].
      destruct (BuilderConfig.version bc); [|now elim Hver].
      cbn [truthy negb]. unfold ret. intros H. injection H as H.
      destruct st as [b disk lg]. cbn [self fs log] in H.
      apply (f_equal log) in H. cbn [log] in H.
      rewrite <- (app_nil_r lg) in H at 1.
      now apply app_inv_head in H. }
    rewrite Hl, app_nil_r. destruct st. reflexivity.
Qed.

Lemma C8_declared_config_needs_version_and_description_witness :
  (exists m st,
      construct undescribed [] "/data" (ConfigObj plain) None
      = (Raise (ValueError m), st))
  /\ _create_builder_config flic (ConfigObj flic_small) (mkState blank [] [])
     = (Return (Some flic_small), mkState blank [] []).
Proof.
  split.
  - apply (proj1 (C8_declared_config_needs_version_and_description
                    undescribed plain plain eq_refl ltac:(discriminate))).
    right. left. reflexivity.
  - apply (proj2 (C8_declared_config_needs_version_and_description
                    flic flic_small flic_small eq_refl ltac:(discriminate)));
      try reflexivity; discriminate.
Defined.

(** C8 as stated fails: [small_again] bears the name of the declared config
    "small" and carries a version and a description, yet the constructor
    rejects it, because it is not the declared object. *)
Lemma C8_same_name_other_object_rejected :
  declared flic (BuilderConfig.name small_again) = Some flic_small
  /\ BuilderConfig.version small_again = Some v2_0_0
  /\ str_truthy (BuilderConfig.description small_again) = true
  /\ construct flic [] "/data" (ConfigObj small_again) None
     = (Raise (ValueError CustomConfigNamedAsAvailable),
        mkState blank [] []).
Proof. repeat split. Qed.

Lemma validated_default_first (cls : DatasetClass) (c : BuilderConfig.t)
    (rest : list BuilderConfig.t) (cfg : option BuilderConfig.t) :
  BUILDER_CONFIGS cls = c :: rest ->
  validated_config cls ConfigNone = Return cfg ->
  cfg = Some c.
Proof.
  intros Hc. unfold validated_config, _create_builder_config. rewrite Hc.
  unfold bind at 1. unfold ret at 1.
  destruct (String.eqb (BuilderConfig.name c) EmptyString); [discriminate|].
  unfold bind at 1.
  destruct (builder_configs_cases cls (mkState blank [] [])) as [H|H];
    rewrite H; cbn [fst snd]; [|discriminate].
  destruct (dict_get (BuilderConfig.name c) (config_dict cls)) as [a|].
  - destruct (negb (is_ c a)); [discriminate|].
    destruct (negb (truthy (BuilderConfig.version c))); [discriminate|].
    destruct (negb (str_truthy (BuilderConfig.description c)));
      [discriminate|].
    cbn. congruence.
  - cbn. congruence.
Qed.

Lemma set_version_keeps_config (cls : DatasetClass) (version : Version)
    (st : State) :
  _builder_config (self (snd (_set_version cls version st)))
  = _builder_config (self st).
Proof.
  destruct st as [[ver cfg root d] disk lg].
  unfold _set_version; unfold_py.
  split_cases; reflexivity.
Qed.

(** C9.  A builder constructed without a [config] argument on a class whose
    [BUILDER_CONFIGS] is not empty has the first of them as its builder
    config. *)
Theorem C9_default_config_is_first
    (cls : DatasetClass) (disk : gfile.FileSystem) (root : string)
    (version : option Version) (c : BuilderConfig.t)
    (rest : list BuilderConfig.t) (st : State) :
  BUILDER_CONFIGS cls = c :: rest ->
  construct cls disk root ConfigNone version = (Return tt, st) ->
  _builder_config (self st) = Some c.
Proof.
  intros Hc Hst.
  destruct (validated_config cls ConfigNone) as [cfg|e] eqn:Hv.
  - rewrite (validated_default_first cls c rest cfg Hc Hv) in Hv.
    destruct (construct_after_config cls disk root ConfigNone version _ Hv)
      as (l & d & _ & Hcons).
    rewrite Hcons in Hst.
    pose proof (set_version_keeps_config cls (requested_of version)
                  (mkState (mkBuilder None (Some c) root d) disk l)) as Hk.
    rewrite Hst in Hk. exact Hk.
  - destruct (construct_config_error cls disk root ConfigNone version e Hv)
      as [st' Hst'].
    congruence.
Qed.

Lemma C9_default_config_is_first_witness :
  _builder_config (self (snd (construct flic [] "/data" ConfigNone None)))
  = Some flic_small.
Proof.
  apply (C9_default_config_is_first flic [] "/data" None flic_small
           [flic_full]); reflexivity.
Defined.

(** ** flic.py *)

(** The parser takes every display whose entries are separated by commas. *)
Lemma entries_parse (kvs : list (string * string)) (fuel : nat) :
  List.length (Flic.entries kvs) <= fuel ->
  Flic.key_datum_list fuel (Flic.entries kvs) = true.
Proof.
  revert fuel. induction kvs as [|[k v] rest IH]; intros fuel Hlen.
  - destruct fuel; [cbn in Hlen; lia | reflexivity].
  - destruct fuel as [|fuel]; [cbn in Hlen; lia|].
    destruct rest as [|kv rest]; [reflexivity|].
    change (Flic.key_datum_list fuel (Flic.entries (kv :: rest)) = true).
    apply IH. cbn [Flic.entries List.length] in Hlen |- *. lia.
Qed.

Lemma display_parses (kvs : list (string * string)) :
  Flic.dict_display (Flic.display kvs) = true.
Proof.
  unfold Flic.display, Flic.dict_display. now apply entries_parse.
Qed.

(** With the comma that l.51 lacks, the display of [descriptions] is one the
    parser takes. *)
Lemma descriptions_with_comma :
  Flic.display
    [("small", "5003 examples used in our CVPR13 MODEC paper.");
     ("full", String "009"%char
        "20928 examples, a superset of FLIC consisting of more difficult examples.")]
  = [ Flic.LBRACE;
      Flic.STRING "small"; Flic.COLON;
      Flic.STRING "5003 examples used in our CVPR13 MODEC paper.";
      Flic.COMMA;
      Flic.STRING "full"; Flic.COLON;
      Flic.STRING (String "009"%char
        "20928 examples, a superset of FLIC consisting of more difficult examples.");
      Flic.RBRACE ].
Proof. reflexivity. Qed.

(** The text of the method: the loop yields [(i, e)] exactly for the records
    its condition selects, keyed by their index. *)
Lemma generate_from_In {F : Type} (F_truthy : F -> bool)
    (extract_path dir : string) (data : list (Flic.MatExample F))
    (istrain istest : bool) (k i : nat) (e : Flic.Features F) :
  In (i, e) (Flic.generate_from F_truthy extract_path dir k data istrain istest)
  <-> exists r,
        k <= i
        /\ nth_error data (i - k) = Some r
        /\ Flic.selected F_truthy r istrain istest = true
        /\ e = Flic.features_of extract_path dir r.
Proof.
  revert k. induction data as [|x data IH]; intros k.
  - simpl. split; [tauto|]. intros (r & _ & H & _).
    destruct (i - k); discriminate H.
  - cbn [Flic.generate_from]. split.
    + intros H.
      assert (Hrest :
        In (i, e) (Flic.generate_from F_truthy extract_path dir (S k) data
                                      istrain istest) ->
        exists r, k <= i /\ nth_error (x :: data) (i - k) = Some r
                  /\ Flic.selected F_truthy r istrain istest = true
                  /\ e = Flic.features_of extract_path dir r).
      { intros Hin. apply IH in Hin as (r & Hle & Hn & Hs & He).
        exists r. repeat split; try assumption; [lia|].
        replace (i - k) with (S (i - S k)) by lia. exact Hn. }
      destruct (Flic.selected F_truthy x istrain istest) eqn:Hx;
        [|now apply Hrest].
      destruct H as [H|H]; [|now apply Hrest].
      injection H as <- <-. exists x. rewrite Nat.sub_diag. auto.
    + intros (r & Hle & Hn & Hs & He).
      destruct (Nat.eq_dec i k) as [->|Hne].
      * rewrite Nat.sub_diag in Hn. injection Hn as <-.
        rewrite Hs. left. now subst e.
      * assert (Hin : In (i, e)
                        (Flic.generate_from F_truthy extract_path dir (S k)
                                            data istrain istest)).
        { apply IH. exists r. repeat split; try assumption; [lia|].
          replace (i - k) with (S (i - S k)) in Hn by lia. exact Hn. }
        destruct (Flic.selected F_truthy x istrain istest);
          [now right | exact Hin].
Qed.

(** On the text of the method alone, the call with [istrain] only and the
    call with [istest] only both keep a record exactly when it carries both
    marks. *)
Lemma generate_from_both_marks {F : Type} (F_truthy : F -> bool)
    (extract_path dir : string) (data : list (Flic.MatExample F))
    (i : nat) (e : Flic.Features F) :
  In (i, e) (Flic.generate_from F_truthy extract_path dir 0 data true false)
  /\ In (i, e) (Flic.generate_from F_truthy extract_path dir 0 data false true)
  <-> exists r,
        nth_error data i = Some r
        /\ F_truthy (Flic.ex7 r) = true
        /\ F_truthy (Flic.ex8 r) = true
        /\ e = Flic.features_of extract_path dir r.
Proof.
  rewrite !generate_from_In. unfold Flic.selected.
  rewrite Nat.sub_0_r. split.
  - intros [(r & _ & Hn & Hs & He) (r' & _ & Hn' & Hs' & _)].
    rewrite Hn in Hn'. injection Hn' as <-. exists r.
    rewrite andb_true_r, andb_false_r, orb_false_r in Hs.
    rewrite andb_true_r, andb_false_r in Hs'. cbn [orb] in Hs'. auto.
  - intros (r & Hn & H7 & H8 & He).
    split; exists r; rewrite H7, H8; repeat split; auto; lia.
Qed.


(* ================================================================== *)
(** * Part III: further properties of the code *)
(* ================================================================== *)

(** ** The constructor, row by row *)

(** Config validation as a run: the outcome and the lines it logs depend on
    the class and the argument only. *)
Lemma create_builder_config_run (cls : DatasetClass) (config : ConfigArg)
    (st : State) :
  _create_builder_config cls config st
  = (validated_config cls config,
     mkState (self st) (fs st) (log st ++ validation_log cls config)).
Proof.
  unfold validated_config, validation_log, _create_builder_config.
  destruct st as [b disk lg].
  destruct config as [|n|c];
    destruct (BUILDER_CONFIGS cls) as [|c0 rest] eqn:Ecfgs;
    run_py; rewrite ?Ecfgs;
    repeat match goal with
           | |- context [if ?b then _ else _] => destruct b eqn:?
           | |- context [match dict_get ?n ?d with _ => _ end] =>
               destruct (dict_get n d) eqn:?
           end;
    cbn [fst snd self fs log Datatypes.app]; rewrite ?app_nil_r; reflexivity.
Qed.

Lemma construct_run (cls : DatasetClass) (disk : gfile.FileSystem)
    (root : string) (config : ConfigArg) (version : option Version)
    (cfg : option BuilderConfig.t) :
  validated_config cls config = Return cfg ->
  exists d,
    _get_data_dir cls (Some (requested_of version))
                  (mkState (mkBuilder None cfg root None) disk
                           (validation_log cls config))
    = (Return d, mkState (mkBuilder None cfg root None) disk
                         (validation_log cls config))
    /\ construct cls disk root config version
       = _set_version cls (requested_of version)
                      (mkState (mkBuilder None cfg root d) disk
                               (validation_log cls config)).
Proof.
  intros Hv. unfold construct, __init__.
  unfold bind at 1, set_version at 1. cbn [fst snd self fs log].
  unfold bind at 1. rewrite create_builder_config_run, Hv.
  cbn [fst snd self fs log Datatypes.app].
  unfold bind at 1, set_builder_config at 1. cbn [fst snd self fs log].
  unfold bind at 1, set_data_dir_root at 1. cbn [fst snd self fs log].
  cbn [_version _builder_config _data_dir_root _data_dir blank].
  unfold bind at 1.
  fold (requested_of version).
  match goal with
  | |- context [_get_data_dir cls ?v ?s] =>
      destruct (get_data_dir_returns cls v s) as [d Hd]
  end.
  exists d. split; [exact Hd|].
  rewrite Hd. unfold bind at 1, set_data_dir at 1. reflexivity.
Qed.

Lemma construct_config_raises (cls : DatasetClass) (disk : gfile.FileSystem)
    (root : string) (config : ConfigArg) (version : option Version)
    (e : Exception) :
  validated_config cls config = Raise e ->
  construct cls disk root config version
  = (Raise e, mkState blank disk (validation_log cls config)).
Proof.
  intros Hv. unfold construct, __init__.
  unfold bind at 1, set_version at 1. cbn [fst snd self fs log].
  unfold bind at 1. rewrite create_builder_config_run, Hv. reflexivity.
Qed.

Lemma not_explicit_in (requested : Version) :
  (forall x, requested <> Explicit x) ->
  Version_in requested [AUTO; LATEST] = true.
Proof.
  destruct requested as [| |x]; intros H; try reflexivity. now elim (H x).
Qed.

(** X1.  Row 1 of the table on the whole constructor: under AUTO or LATEST,
    when no name under the builder's directory reads as a version (or the
    directory is not there), the builder takes the code version and is left
    unbound; the disk is not touched. *)
Theorem X1_no_data_uses_code
    (cls : DatasetClass) (disk : gfile.FileSystem) (root : string)
    (config : ConfigArg) (version : option Version)
    (cfg : option BuilderConfig.t) (code : Ver) :
  validated_config cls config = Return cfg ->
  code_version_of cls cfg = Some code ->
  (forall x, requested_of version <> Explicit x) ->
  newest_on_disk disk (builder_data_dir cls root cfg) = None ->
  construct cls disk root config version
  = (Return tt,
     mkState (mkBuilder (Some code) cfg root None) disk
             (validation_log cls config
              ++ [LogNoPreviousData code; InfoInitializeFromPackageData])).
Proof.
  intros Hcfg Hcode Hreq Hnone.
  destruct (construct_run cls disk root config version cfg Hcfg)
    as (d & Hd & ->).
  rewrite get_data_dir_none in Hd.
  - injection Hd as <-.
    apply set_version_no_data; [assumption | reflexivity|].
    now apply not_explicit_in.
  - intros x Hx. injection Hx as Hx. now apply (Hreq x).
  - exact Hnone.
Qed.

Lemma X1_no_data_uses_code_witness :
  construct mnist [["data"; "mnist"; "1.0.0.incomplete"]] "/data" ConfigNone None
  = (Return tt,
     mkState (mkBuilder (Some v1_0_0) None "/data" None)
             [["data"; "mnist"; "1.0.0.incomplete"]]
             (validation_log mnist ConfigNone
              ++ [LogNoPreviousData v1_0_0; InfoInitializeFromPackageData])).
Proof.
  apply (X1_no_data_uses_code mnist [["data"; "mnist"; "1.0.0.incomplete"]]
           "/data" ConfigNone None None v1_0_0);
    try reflexivity; discriminate.
Defined.



(** What a returning [_set_version] leaves on a builder without version. *)
Lemma set_version_returns (cls : DatasetClass) (requested : Version)
    (cfg : option BuilderConfig.t) (root : string) (d : option string)
    (disk : gfile.FileSystem) (lg : list Event) (st : State) :
  _set_version cls requested (mkState (mkBuilder None cfg root d) disk lg)
  = (Return tt, st) ->
  exists code v,
    code_version_of cls cfg = Some code
    /\ _version (self st) = Some v
    /\ Ver_leb v code = true
    /\ _builder_config (self st) = cfg
    /\ _data_dir_root (self st) = root
    /\ fs st = disk
    /\ match _data_dir (self st) with
       | None => v = code
       | Some p => d = Some p /\ p <> EmptyString
                   /\ Ver_parse (posixpath.basename p) = Some v
       end.
Proof.
  unfold _set_version; unfold_py.
  cbn [fst snd self fs log _version _builder_config _data_dir _data_dir_root].
  destruct (negb (truthy cfg) && negb (truthy (VERSION cls))); [discriminate|].
  destruct d as [p|]; cbn [path_truthy].
  - destruct (String.eqb_spec p EmptyString) as [->|Hp]; cbn [negb].
    + destruct cfg as [c|];
        [destruct (BuilderConfig.version c) as [code|] eqn:Ec
        |destruct (VERSION cls) as [code|] eqn:Ec];
        try discriminate; step_py;
        (destruct (Version_in requested [AUTO; LATEST]); [|discriminate]);
        step_py; intros H; injection H as <-;
        exists code, code; cbn; repeat split; auto using Ver_leb_refl.
    + destruct (Ver_parse (posixpath.basename p)) as [dv|] eqn:Edv;
        [|discriminate].
      destruct cfg as [c|];
        [destruct (BuilderConfig.version c) as [code|] eqn:Ec
        |destruct (VERSION cls) as [code|] eqn:Ec];
        try discriminate; step_py;
        (destruct (Ver_ltb dv code && Version_eqb requested LATEST);
         step_py;
         [ intros H; injection H as <-;
           exists code, code; cbn; repeat split; auto using Ver_leb_refl
         | destruct (Ver_ltb dv code); step_py;
           (destruct (Ver_ltb code dv) eqn:El; step_py; [discriminate|]);
           intros H; injection H as <-;
           exists code, dv; cbn; repeat split;
           auto using Ver_not_ltb_leb ]).
  - destruct cfg as [c|];
      [destruct (BuilderConfig.version c) as [code|] eqn:Ec
      |destruct (VERSION cls) as [code|] eqn:Ec];
      try discriminate; step_py;
      (destruct (Version_in requested [AUTO; LATEST]); [|discriminate]);
      step_py; intros H; injection H as <-;
      exists code, code; cbn; repeat split; auto using Ver_leb_refl.
Qed.

(** X3.  What holds of every builder the constructor returns: its config is
    the validated one, its root the given one, the disk is as it was, and
    its version is set and does not exceed the code's; an unbound builder is
    at the code's version, a bound one at the version its directory's name
    reads as. *)
Theorem X3_constructed_builder
    (cls : DatasetClass) (disk : gfile.FileSystem) (root : string)
    (config : ConfigArg) (version : option Version) (st : State) :
  construct cls disk root config version = (Return tt, st) ->
  exists cfg code v,
    validated_config cls config = Return cfg
    /\ code_version_of cls cfg = Some code
    /\ _version (self st) = Some v
    /\ Ver_leb v code = true
    /\ _builder_config (self st) = cfg
    /\ _data_dir_root (self st) = root
    /\ fs st = disk
    /\ match _data_dir (self st) with
       | None => v = code
       | Some p => p <> EmptyString
                   /\ Ver_parse (posixpath.basename p) = Some v
       end.
Proof.
  intros H.
  destruct (validated_config cls config) as [cfg|e] eqn:Hv.
  - destruct (construct_run cls disk root config version cfg Hv)
      as (d & _ & Hc).
    rewrite Hc in H.
    destruct (set_version_returns _ _ _ _ _ _ _ _ H)
      as (code & v & H1 & H2 & H3 & H4 & H5 & H6 & H7).
    exists cfg, code, v. repeat split; try assumption.
    destruct (_data_dir (self st)); [|assumption].
    destruct H7 as (_ & ? & ?). now split.
  - rewrite (construct_config_raises _ _ _ _ _ _ Hv) in H. discriminate.
Qed.

Lemma X3_constructed_builder_witness :
  exists cfg code v,
    validated_config flic (ConfigName "full") = Return cfg
    /\ code_version_of flic cfg = Some code
    /\ _version (self (snd (construct flic [] "/data" (ConfigName "full")
                                      (Some LATEST)))) = Some v
    /\ Ver_leb v code = true
    /\ _builder_config (self (snd (construct flic [] "/data"
                                             (ConfigName "full")
                                             (Some LATEST)))) = cfg
    /\ _data_dir_root (self (snd (construct flic [] "/data"
                                            (ConfigName "full")
                                            (Some LATEST)))) = "/data"
    /\ fs (snd (construct flic [] "/data" (ConfigName "full") (Some LATEST)))
       = []
    /\ match _data_dir (self (snd (construct flic [] "/data"
                                             (ConfigName "full")
                                             (Some LATEST)))) with
       | None => v = code
       | Some p => p <> EmptyString
                   /\ Ver_parse (posixpath.basename p) = Some v
       end.
Proof.
  apply (X3_constructed_builder flic [] "/data" (ConfigName "full")
           (Some LATEST)).
  reflexivity.
Defined.

(** The errors config validation can raise. *)
Lemma validated_config_errors (cls : DatasetClass) (config : ConfigArg)
    (e : Exception) :
  validated_config cls config = Raise e ->
  e = ValueError BuilderConfigNotFound
  \/ e = ValueError BuilderConfigMustHaveName
  \/ e = ValueError CustomConfigNamedAsAvailable
  \/ e = ValueError BuilderConfigMustHaveVersion
  \/ e = ValueError BuilderConfigMustHaveDescription
  \/ e = ValueError DuplicatedConfigNames.
Proof.
  unfold validated_config, _create_builder_config.
  destruct config as [|n|c];
    destruct (BUILDER_CONFIGS cls) as [|c0 rest] eqn:Ecfgs;
    run_py; rewrite ?Ecfgs;
    repeat match goal with
           | |- context [if ?b then _ else _] => destruct b eqn:?
           | |- context [match dict_get ?n ?d with _ => _ end] =>
               destruct (dict_get n d) eqn:?
           end;
    cbn [fst snd]; intros H; try discriminate H; injection H as <-; tauto.
Qed.

(** The errors [_set_version] can raise on a builder without version whose
    directory, if it has one, is named by a version. *)
Lemma set_version_errors (cls : DatasetClass) (requested : Version)
    (cfg : option BuilderConfig.t) (root : string) (d : option string)
    (disk : gfile.FileSystem) (lg : list Event) (e : Exception) (st : State) :
  (forall x, requested = Explicit x -> path_truthy d = true) ->
  _set_version cls requested (mkState (mkBuilder None cfg root d) disk lg)
  = (Raise e, st) ->
  e = AssertionError NoDefinedVersion
  \/ e = ValueError InvalidVersion
  \/ e = StaleCodeError.
Proof.
  intros Hreq. unfold _set_version; unfold_py.
  cbn [fst snd self fs log _version _builder_config _data_dir _data_dir_root].
  destruct (negb (truthy cfg) && negb (truthy (VERSION cls)));
    [intros H; injection H as <-; tauto|].
  destruct (path_truthy d) eqn:Hd.
  - destruct d as [p|]; [|discriminate Hd].
    destruct (Ver_parse (posixpath.basename p)) as [dv|];
      [|intros H; injection H as <-; tauto].
    destruct cfg as [c|];
      [destruct (BuilderConfig.version c) as [code|]
      |destruct (VERSION cls) as [code|]];
      try (intros H; injection H as <-; tauto); step_py;
      (destruct (Ver_ltb dv code && Version_eqb requested LATEST); step_py;
       [discriminate|];
       destruct (Ver_ltb dv code); step_py;
       (destruct (Ver_ltb code dv); step_py;
        [intros H; injection H as <-; unfold StaleCodeError; tauto
        |discriminate])).
  - assert (Hin : Version_in requested [AUTO; LATEST] = true).
    { apply not_explicit_in. intros x Hx.
      pose proof (Hreq x Hx) as Ht. congruence. }
    destruct cfg as [c|];
      [destruct (BuilderConfig.version c) as [code|]
      |destruct (VERSION cls) as [code|]];
      try (intros H; injection H as <-; tauto); step_py;
      rewrite Hin; step_py; discriminate.
Qed.

(** X4.  Whatever its arguments, the constructor never raises the "Could
    not find the requested version" error of [_choose_version], nor the
    assertions of step 3 and of [info]: when it raises, the error is one of
    config validation, the missing-version assertion, an invalid version, or
    the data being newer than the code. *)
Theorem X4_constructor_errors
    (cls : DatasetClass) (disk : gfile.FileSystem) (root : string)
    (config : ConfigArg) (version : option Version) (e : Exception)
    (st : State) :
  construct cls disk root config version = (Raise e, st) ->
  (validated_config cls config = Raise e
   \/ e = AssertionError NoDefinedVersion
   \/ e = ValueError InvalidVersion
   \/ e = StaleCodeError)
  /\ e <> VersionNotFoundError
  /\ e <> AssertionError VersionAlreadyDefined
  /\ e <> AssertionError InfoBeforeVersion.
Proof.
  intros H.
  assert (Hcases : validated_config cls config = Raise e
                   \/ e = AssertionError NoDefinedVersion
                   \/ e = ValueError InvalidVersion
                   \/ e = StaleCodeError).
  { destruct (validated_config cls config) as [cfg|e0] eqn:Hv.
    - right.
      destruct (construct_run cls disk root config version cfg Hv)
        as (d & Hd & Hc).
      rewrite Hc in H. apply set_version_errors in H; [exact H|].
      intros x Hx. rewrite Hx, get_data_dir_explicit in Hd.
      injection Hd as <-.
      apply (Ver_parse_basename_join _ _ _ (Ver_parse_str x)).
    - rewrite (construct_config_raises _ _ _ _ _ _ Hv) in H.
      injection H as <- _. now left. }
  split; [exact Hcases|].
  destruct Hcases as [Hv | [-> | [-> | ->]]];
    try (repeat split; discriminate).
  apply validated_config_errors in Hv.
  destruct Hv as [-> | [-> | [-> | [-> | [-> | ->]]]]];
    repeat split; discriminate.
Qed.

Lemma X4_constructor_errors_witness :
  (validated_config mnist ConfigNone = Raise StaleCodeError
   \/ StaleCodeError = AssertionError NoDefinedVersion
   \/ StaleCodeError = ValueError InvalidVersion
   \/ StaleCodeError = StaleCodeError)
  /\ StaleCodeError <> VersionNotFoundError
  /\ StaleCodeError <> AssertionError VersionAlreadyDefined
  /\ StaleCodeError <> AssertionError InfoBeforeVersion.
Proof.
  apply (X4_constructor_errors mnist disk_1_1_0 "/data" ConfigNone
           (Some (Explicit v1_1_0)) StaleCodeError
           (snd (construct mnist disk_1_1_0 "/data" ConfigNone
                           (Some (Explicit v1_1_0))))).
  reflexivity.
Defined.

(** X5.  AUTO and LATEST part ways only over stale data: unless the newest
    on-disk version is strictly below the code's, the constructor does the
    same under both (same outcome, same builder, same log). *)
Theorem X5_auto_and_latest_agree
    (cls : DatasetClass) (disk : gfile.FileSystem) (root : string)
    (config : ConfigArg) (cfg : option BuilderConfig.t) (code : Ver) :
  validated_config cls config = Return cfg ->
  code_version_of cls cfg = Some code ->
  (forall v, newest_on_disk disk (builder_data_dir cls root cfg) = Some v ->
             Ver_ltb v code = false) ->
  construct cls disk root config (Some AUTO)
  = construct cls disk root config (Some LATEST).
Proof.
  intros Hcfg Hcode Hnew.
  destruct (construct_run cls disk root config (Some AUTO) cfg Hcfg)
    as (d & Hd & ->).
  destruct (construct_run cls disk root config (Some LATEST) cfg Hcfg)
    as (d' & Hd' & ->).
  cbn [requested_of] in *.
  change (_get_data_dir cls (Some LATEST)) with
    (_get_data_dir cls (Some AUTO)) in Hd'.
  rewrite Hd in Hd'. injection Hd' as <-.
  destruct (newest_on_disk disk (builder_data_dir cls root cfg)) as [v|] eqn:En.
  - specialize (Hnew v eq_refl).
    destruct (designated_dir cls AUTO
                (mkState (mkBuilder None cfg root None) disk
                         (validation_log cls config)) v En)
      as (q & Hg & Hq & Hv).
    rewrite Hg in Hd. injection Hd as <-.
    destruct (Ver_trichotomy _ _ Hnew) as [Hlt| ->].
    + now rewrite !(set_version_newer_data cls cfg root q disk _ code v None _
                      Hcode Hq Hv Hlt).
    + now rewrite !(set_version_restores_same cls cfg root q disk _ code _
                      Hcode Hq Hv).
  - rewrite get_data_dir_none in Hd; [|discriminate|exact En].
    injection Hd as <-.
    rewrite (set_version_no_data cls AUTO cfg root None disk _ code
               Hcode eq_refl eq_refl).
    now rewrite (set_version_no_data cls LATEST cfg root None disk _ code
                   Hcode eq_refl eq_refl).
Qed.

Lemma X5_auto_and_latest_agree_witness :
  construct mnist disk_1_0_0 "/data" ConfigNone (Some AUTO)
  = construct mnist disk_1_0_0 "/data" ConfigNone (Some LATEST).
Proof.
  apply (X5_auto_and_latest_agree mnist disk_1_0_0 "/data" ConfigNone None
           v1_0_0); try reflexivity.
  intros v H. injection H as <-. reflexivity.
Defined.

(** ** [_get_data_dir] *)

Lemma valid_versions_In (names : list string) (w : Ver) :
  In w (valid_versions names)
  <-> exists m, In m names /\ Ver_parse m = Some w.
Proof.
  unfold valid_versions. rewrite in_flat_map. split.
  - intros (m & Hm & Hw). exists m. split; [assumption|].
    destruct (Ver_parse m) as [v|]; [|destruct Hw].
    destruct Hw as [->|[]]. reflexivity.
  - intros (m & Hm & Hw). exists m. split; [assumption|].
    rewrite Hw. now left.
Qed.

Lemma newest_on_disk_spec (disk : gfile.FileSystem) (dir : string) :
  match newest_on_disk disk dir with
  | None => forall m, In m (gfile.ListDirectory disk dir) -> Ver_parse m = None
  | Some v =>
      forall m w, In m (gfile.ListDirectory disk dir) ->
                  Ver_parse m = Some w -> Ver_leb w v = true
  end.
Proof.
  unfold newest_on_disk.
  pose proof (valid_versions_In (gfile.ListDirectory disk dir)) as Hin.
  destruct (valid_versions (gfile.ListDirectory disk dir)) as [|v0 l].
  - intros m Hm. destruct (Ver_parse m) as [w|] eqn:E; [|reflexivity].
    destruct (proj2 (Hin w)); eauto.
  - intros m w Hm Hw. apply (proj2 (fold_Ver_max l v0)).
    apply Hin. eauto.
Qed.

(** X6.  Without an explicit version [_get_data_dir] returns, leaving the
    state alone, the directory of the highest version found: [None] exactly
    when no name under the builder's directory reads as a version (names
    such as those of incomplete directories are skipped), and otherwise the
    builder's directory joined with a listed name whose version no other
    listed name exceeds. *)
Theorem X6_get_data_dir_highest_version
    (cls : DatasetClass) (version : option Version) (st : State) :
  (forall x, version <> Some (Explicit x)) ->
  exists r,
    _get_data_dir cls version st = (Return r, st)
    /\ match r with
       | None =>
           forall m,
             In m (gfile.ListDirectory (fs st)
                     (builder_data_dir cls (_data_dir_root (self st))
                                       (_builder_config (self st)))) ->
             Ver_parse m = None
       | Some p =>
           exists n v,
             p = posixpath.join
                   (builder_data_dir cls (_data_dir_root (self st))
                                     (_builder_config (self st))) n
             /\ In n (gfile.ListDirectory (fs st)
                        (builder_data_dir cls (_data_dir_root (self st))
                                          (_builder_config (self st))))
             /\ Ver_parse n = Some v
             /\ forall m w,
                  In m (gfile.ListDirectory (fs st)
                          (builder_data_dir cls (_data_dir_root (self st))
                                            (_builder_config (self st)))) ->
                  Ver_parse m = Some w -> Ver_leb w v = true
       end.
Proof.
  intros Hx.
  set (dir := builder_data_dir cls (_data_dir_root (self st))
                               (_builder_config (self st))).
  pose proof (newest_on_disk_spec (fs st) dir) as Hspec.
  destruct (newest_on_disk (fs st) dir) as [v|] eqn:En.
  - destruct (highest_version_dir _ _ _ En) as (n & t & Hs & Hp).
    pose proof (newest_dir_exists _ _ _ En) as He.
    exists (Some (posixpath.join dir n)). split.
    + destruct version as [[| |x]|]; try (now elim (Hx x));
        run_py; fold dir; rewrite He, Hs; reflexivity.
    + exists n, v. repeat split; try assumption.
      destruct (sort_reverse_head
                  (version_dirnames (gfile.ListDirectory (fs st) dir)))
        as (h & t' & Hs' & Hh & _).
      * intros E. rewrite E in Hs. discriminate.
      * rewrite Hs in Hs'. injection Hs' as <- _.
        now apply version_dirnames_In in Hh.
  - exists None. split; [|exact Hspec].
    now apply get_data_dir_none.
Qed.

Lemma X6_get_data_dir_highest_version_witness :
  exists r,
    _get_data_dir mnist (Some AUTO)
      (mkState (mkBuilder None None "/data" None)
               [["data"; "mnist"; "0.9.0"]; ["data"; "mnist"; "1.0.0"];
                ["data"; "mnist"; "1.1.0.incomplete"]] [])
    = (Return r,
       mkState (mkBuilder None None "/data" None)
               [["data"; "mnist"; "0.9.0"]; ["data"; "mnist"; "1.0.0"];
                ["data"; "mnist"; "1.1.0.incomplete"]] [])
    /\ match r with
       | None =>
           forall m,
             In m (gfile.ListDirectory
                     [["data"; "mnist"; "0.9.0"]; ["data"; "mnist"; "1.0.0"];
                      ["data"; "mnist"; "1.1.0.incomplete"]]
                     (builder_data_dir mnist "/data" None)) ->
             Ver_parse m = None
       | Some p =>
           exists n v,
             p = posixpath.join (builder_data_dir mnist "/data" None) n
             /\ In n (gfile.ListDirectory
                        [["data"; "mnist"; "0.9.0"]; ["data"; "mnist"; "1.0.0"];
                         ["data"; "mnist"; "1.1.0.incomplete"]]
                        (builder_data_dir mnist "/data" None))
             /\ Ver_parse n = Some v
             /\ forall m w,
                  In m (gfile.ListDirectory
                          [["data"; "mnist"; "0.9.0"];
                           ["data"; "mnist"; "1.0.0"];
                           ["data"; "mnist"; "1.1.0.incomplete"]]
                          (builder_data_dir mnist "/data" None)) ->
                  Ver_parse m = Some w -> Ver_leb w v = true
       end.
Proof.
  apply (X6_get_data_dir_highest_version mnist (Some AUTO)
           (mkState (mkBuilder None None "/data" None)
                    [["data"; "mnist"; "0.9.0"]; ["data"; "mnist"; "1.0.0"];
                     ["data"; "mnist"; "1.1.0.incomplete"]] [])).
  discriminate.
Defined.

(** *** The order of the listing does not matter *)

Lemma string_leb_trans (a b c : string) :
  String.leb a b = true -> String.leb b c = true -> String.leb a c = true.
Proof.
  unfold String.leb. revert b c.
  induction a as [|x a IH]; intros [|y b] [|z c]; simpl;
    try reflexivity; try discriminate.
  unfold Ascii.compare.
  destruct (N.compare_spec (N_of_ascii x) (N_of_ascii y)) as [Exy|Lxy|Gxy];
    try discriminate;
    destruct (N.compare_spec (N_of_ascii y) (N_of_ascii z)) as [Eyz|Lyz|Gyz];
    try discriminate;
    destruct (N.compare_spec (N_of_ascii x) (N_of_ascii z)) as [Exz|Lxz|Gxz];
    try reflexivity; try lia.
  apply IH.
Qed.

Lemma Ver_ltb_trans (a b c : Ver) :
  Ver_ltb a b = true -> Ver_ltb b c = true -> Ver_ltb a c = true.
Proof. intros H1 H2. ver_order. Qed.

Lemma tuple_geb_cases (x y : Ver * string) :
  tuple_geb x y = true
  <-> Ver_ltb (fst y) (fst x) = true
      \/ (fst x = fst y /\ String.leb (snd y) (snd x) = true).
Proof.
  unfold tuple_geb. destruct (Ver_compare (fst x) (fst y)) eqn:E.
  - apply Ver_compare_eq in E. rewrite E, Ver_ltb_irrefl. intuition discriminate.
  - split; [discriminate|]. intros [H|[H _]].
    + revert E H. generalize (fst x) (fst y). intros a b E H. ver_order.
    + rewrite H, Ver_compare_refl in E. discriminate.
  - split; [intros _|reflexivity]. left.
    revert E. generalize (fst x) (fst y). intros a b E. ver_order.
Qed.

Lemma tuple_geb_refl (x : Ver * string) : tuple_geb x x = true.
Proof.
  apply tuple_geb_cases. right. split; [reflexivity|].
  unfold String.leb.
  destruct (String.compare (snd x) (snd x)) eqn:E; try reflexivity.
  pose proof (String.compare_antisym (snd x) (snd x)) as Ha.
  rewrite E in Ha. discriminate Ha.
Qed.

Lemma tuple_geb_trans (x y z : Ver * string) :
  tuple_geb x y = true -> tuple_geb y z = true -> tuple_geb x z = true.
Proof.
  rewrite !tuple_geb_cases. intros [H1|[E1 L1]] [H2|[E2 L2]].
  - left. now apply Ver_ltb_trans with (fst y).
  - left. now rewrite <- E2.
  - left. now rewrite E1.
  - right. split; [congruence|]. now apply string_leb_trans with (snd y).
Qed.

Lemma tuple_geb_total (x y : Ver * string) :
  tuple_geb x y = false -> tuple_geb y x = true.
Proof.
  intros H. apply tuple_geb_cases.
  destruct (Ver_ltb (fst x) (fst y)) eqn:El; [now left|].
  right. destruct (Ver_trichotomy _ _ El) as [Hlt|Heq].
  - assert (tuple_geb x y = true) by (apply tuple_geb_cases; now left).
    congruence.
  - split; [now symmetry|].
    destruct (String.leb_total (snd x) (snd y)) as [Hl|Hl]; [assumption|].
    assert (tuple_geb x y = true) by (apply tuple_geb_cases; now right).
    congruence.
Qed.

Lemma tuple_geb_antisym (x y : Ver * string) :
  tuple_geb x y = true -> tuple_geb y x = true -> x = y.
Proof.
  rewrite !tuple_geb_cases. intros [H1|[E1 L1]] [H2|[E2 L2]].
  - rewrite (Ver_ltb_asym _ _ H1) in H2. discriminate.
  - rewrite E2, Ver_ltb_irrefl in H1. discriminate.
  - rewrite E1, Ver_ltb_irrefl in H2. discriminate.
  - destruct x, y. cbn [fst snd] in *. subst.
    f_equal. now apply String.leb_antisym.
Qed.

(** The sorted list starts with the greatest tuple. *)
Lemma sort_reverse_greatest (l : list (Ver * string)) :
  l <> [] ->
  exists h t, sort_reverse l = h :: t /\ In h l
              /\ forall y, In y l -> tuple_geb h y = true.
Proof.
  induction l as [|x l IH]; [congruence|]. intros _. simpl.
  destruct l as [|x' l'].
  - simpl. exists x, []. repeat split; [now left|].
    intros y [<-|[]]. apply tuple_geb_refl.
  - destruct IH as (h & t & Hs & Hin & Hmax); [discriminate|].
    rewrite Hs. simpl. destruct (tuple_geb x h) eqn:E.
    + exists x, (h :: t). repeat split; [now left|].
      intros y [<-|Hy]; [apply tuple_geb_refl|].
      apply tuple_geb_trans with h; [assumption | now apply Hmax].
    + exists h, (insert_reverse x t). repeat split; [now right|].
      intros y [<-|Hy]; [now apply tuple_geb_total | now apply Hmax].
Qed.

Lemma version_dirnames_Permutation (l l' : list string) :
  Permutation l l' ->
  Permutation (version_dirnames l) (version_dirnames l').
Proof.
  induction 1 as [|x l l' _ IH|x y l|l l' l'' _ IH1 _ IH2]; simpl.
  - constructor.
  - destruct (Ver_parse x); [now constructor | assumption].
  - destruct (Ver_parse x), (Ver_parse y);
      try apply Permutation_refl; apply perm_swap.
  - now apply Permutation_trans with (version_dirnames l').
Qed.

Lemma sort_reverse_head_Permutation (l l' : list (Ver * string)) :
  Permutation l l' ->
  hd_error (sort_reverse l) = hd_error (sort_reverse l').
Proof.
  intros Hp. destruct l as [|x l].
  - apply Permutation_nil in Hp. now subst.
  - destruct (sort_reverse_greatest (x :: l)) as (h & t & -> & Hh & Hm);
      [discriminate|].
    destruct (sort_reverse_greatest l') as (h' & t' & -> & Hh' & Hm').
    { intros ->. apply Permutation_sym, Permutation_nil in Hp. discriminate. }
    simpl. f_equal. apply tuple_geb_antisym.
    + apply Hm. now apply (Permutation_in _ (Permutation_sym Hp)).
    + apply Hm'. now apply (Permutation_in _ Hp).
Qed.

(** X7.  [_get_data_dir] does not depend on the order in which the
    directory is listed: for the same builder, on two disks where the
    builder's directory exists alike and lists the same names in any order,
    it returns the same directory. *)
Theorem X7_listing_order_is_irrelevant
    (cls : DatasetClass) (version : option Version) (st st' : State) :
  self st = self st' ->
  gfile.Exists (fs st)
    (builder_data_dir cls (_data_dir_root (self st)) (_builder_config (self st)))
  = gfile.Exists (fs st')
      (builder_data_dir cls (_data_dir_root (self st)) (_builder_config (self st))) ->
  Permutation
    (gfile.ListDirectory (fs st)
       (builder_data_dir cls (_data_dir_root (self st)) (_builder_config (self st))))
    (gfile.ListDirectory (fs st')
       (builder_data_dir cls (_data_dir_root (self st)) (_builder_config (self st)))) ->
  fst (_get_data_dir cls version st) = fst (_get_data_dir cls version st').
Proof.
  intros Hself Hex Hperm.
  pose proof (sort_reverse_head_Permutation _ _
                (version_dirnames_Permutation _ _ Hperm)) as Hhd.
  destruct version as [[| |x]|]; run_py; rewrite <- Hself;
    try reflexivity; rewrite <- Hex;
    (destruct (gfile.Exists _ _); cbn [negb]; [|reflexivity];
     destruct (sort_reverse (version_dirnames (gfile.ListDirectory (fs st) _)))
       as [|[v n] t];
     destruct (sort_reverse (version_dirnames (gfile.ListDirectory (fs st') _)))
       as [|[v' n'] t'];
     cbn [hd_error] in Hhd; try discriminate Hhd; try reflexivity;
     injection Hhd as <- <-; reflexivity).
Qed.

Lemma X7_listing_order_is_irrelevant_witness :
  fst (_get_data_dir mnist (Some LATEST)
         (mkState (mkBuilder None None "/data" None)
                  [["data"; "mnist"; "0.9.0"]; ["data"; "mnist"; "1.0.0"]] []))
  = fst (_get_data_dir mnist (Some LATEST)
           (mkState (mkBuilder None None "/data" None)
                    [["data"; "mnist"; "1.0.0"]; ["data"; "mnist"; "0.9.0"]] [])).
Proof.
  apply (X7_listing_order_is_irrelevant mnist (Some LATEST)
           (mkState (mkBuilder None None "/data" None)
                    [["data"; "mnist"; "0.9.0"]; ["data"; "mnist"; "1.0.0"]] [])
           (mkState (mkBuilder None None "/data" None)
                    [["data"; "mnist"; "1.0.0"]; ["data"; "mnist"; "0.9.0"]] []));
    try reflexivity.
  apply perm_swap.
Defined.

(** ** Explicit requests *)

(** [_set_version] does not read the disk. *)
Lemma set_version_ignores_disk (cls : DatasetClass) (requested : Version)
    (b : DatasetBuilder) (disk disk' : gfile.FileSystem) (lg : list Event) :
  fst (_set_version cls requested (mkState b disk lg))
  = fst (_set_version cls requested (mkState b disk' lg))
  /\ self (snd (_set_version cls requested (mkState b disk lg)))
     = self (snd (_set_version cls requested (mkState b disk' lg)))
  /\ log (snd (_set_version cls requested (mkState b disk lg)))
     = log (snd (_set_version cls requested (mkState b disk' lg)))
  /\ fs (snd (_set_version cls requested (mkState b disk lg))) = disk.
Proof.
  destruct b as [ver cfg root d].
  unfold _set_version; unfold_py.
  split_cases; repeat split.
Qed.

(** X8.  Under an explicit version the constructor does not look at the
    disk at all: on any two disks it has the same outcome, builds the same
    builder and logs the same lines, whether or not the version's directory
    exists. *)
Theorem X8_explicit_request_ignores_disk
    (cls : DatasetClass) (disk disk' : gfile.FileSystem) (root : string)
    (config : ConfigArg) (v : Ver) :
  fst (construct cls disk root config (Some (Explicit v)))
  = fst (construct cls disk' root config (Some (Explicit v)))
  /\ self (snd (construct cls disk root config (Some (Explicit v))))
     = self (snd (construct cls disk' root config (Some (Explicit v))))
  /\ log (snd (construct cls disk root config (Some (Explicit v))))
     = log (snd (construct cls disk' root config (Some (Explicit v)))).
Proof.
  destruct (validated_config cls config) as [cfg|e] eqn:Hv.
  - destruct (construct_run cls disk root config (Some (Explicit v)) cfg Hv)
      as (d & Hd & ->).
    destruct (construct_run cls disk' root config (Some (Explicit v)) cfg Hv)
      as (d' & Hd' & ->).
    cbn [requested_of] in *.
    rewrite get_data_dir_explicit in Hd, Hd'.
    injection Hd as <-. injection Hd' as <-.
    cbn [self _data_dir_root _builder_config].
    destruct (set_version_ignores_disk cls (Explicit v)
                (mkBuilder None cfg root
                   (Some (posixpath.join (builder_data_dir cls root cfg)
                                         (Ver_str v))))
                disk disk' (validation_log cls config))
      as (H1 & H2 & H3 & _).
    auto.
  - rewrite !(construct_config_raises _ _ _ _ _ _ Hv). auto.
Qed.

(** ** [download_and_prepare], further *)

Lemma strip_prefix_refl (p : list string) : gfile.strip_prefix p p = Some [].
Proof.
  induction p as [|a p IH]; simpl; [reflexivity|].
  now rewrite String.eqb_refl.
Qed.

(** After the temporary directory has been made and renamed, the target
    exists. *)
Lemma committed_dir_exists (disk : gfile.FileSystem) (tmp target : string) :
  gfile.Exists (gfile.Rename (gfile.MakeDirs disk tmp) tmp target) target
  = true.
Proof.
  unfold gfile.Exists, gfile.Rename, gfile.MakeDirs.
  rewrite map_app, existsb_app. apply orb_true_iff. right.
  simpl. rewrite strip_prefix_refl, app_nil_r.
  unfold gfile.is_under. now rewrite strip_prefix_refl.
Qed.



(** X10.  A collision leaves its mark: [download_and_prepare] assigns the
    target to [_data_dir] before it checks that the target is free, so
    after the "Trying to overwrite" error the builder is bound to the
    existing directory, and a further call in the default mode reports
    "Reusing dataset" and returns, without having restored anything. *)
Theorem X10_collision_leaves_builder_bound
    (cls : DatasetClass) (st : State) (mode : option GenerateMode)
    (compute_stats compute_stats' : bool) (v : Ver) :
  path_truthy (_data_dir (self st)) = false ->
  _version (self st) = Some v ->
  gfile.Exists (fs st) (version_dir cls (self st) v) = true ->
  exists st',
    download_and_prepare cls mode compute_stats st
    = (Raise VersionCollisionError, st')
    /\ _data_dir (self st') = Some (version_dir cls (self st) v)
    /\ download_and_prepare cls None compute_stats' st'
       = (Return tt,
          mkState (self st') (fs st')
                  (log st' ++ [LogReusing (Some (version_dir cls (self st) v))])).
Proof.
  intros Hu Hv He. destruct st as [[ver cfg root d] disk lg].
  unfold version_dir in *.
  cbn [self fs log _version _data_dir _data_dir_root _builder_config] in *.
  subst ver.
  destruct (Ver_parse_basename_join (builder_data_dir cls root cfg)
              (Ver_str v) v (Ver_parse_str v)) as [_ Hp].
  unfold download_and_prepare; unfold_py.
  cbn [fst snd self fs log _version _builder_config _data_dir _data_dir_root].
  rewrite Hu. step_py. rewrite He.
  eexists. split; [reflexivity|]. split; [reflexivity|].
  cbn [fst snd self fs log _version _builder_config _data_dir _data_dir_root].
  rewrite Hp. reflexivity.
Qed.

Lemma X10_collision_leaves_builder_bound_witness :
  exists st',
    download_and_prepare mnist None true late_mnist
    = (Raise VersionCollisionError, st')
    /\ _data_dir (self st')
       = Some (version_dir mnist (self late_mnist) v1_0_0)
    /\ download_and_prepare mnist None true st'
       = (Return tt,
          mkState (self st') (fs st')
                  (log st'
                   ++ [LogReusing
                         (Some (version_dir mnist (self late_mnist) v1_0_0))])).
Proof.
  apply (X10_collision_leaves_builder_bound mnist late_mnist None true true
           v1_0_0); reflexivity.
Defined.

(** What one call does to a builder that is bound and has its version. *)
Lemma call_on_bound_builder (cls : DatasetClass) (c : Call) (st : State)
    (v : Ver) :
  _version (self st) = Some v ->
  path_truthy (_data_dir (self st)) = true ->
  self (snd (call cls c st)) = self st /\ fs (snd (call cls c st)) = fs st.
Proof.
  intros Hv Hb. destruct c as [version|mode stats]; cbn [call].
  - destruct (set_version_again cls st version v Hv)
      as (e & st' & -> & Hs & Hf & _).
    now split.
  - unfold download_and_prepare; unfold_py.
    cbn [fst snd self]. rewrite Hb.
    destruct mode as [[| |]|]; split; reflexivity.
Qed.

(** X11.  A builder that is bound to a data directory and has its version
    never regenerates and never rebinds: whatever sequence of
    [_set_version] and [download_and_prepare] calls follows, in whatever
    modes, the builder's attributes and the disk stay exactly as they
    were. *)
Theorem X11_bound_builder_is_inert
    (cls : DatasetClass) (st : State) (v : Ver) (l : list Call) :
  _version (self st) = Some v ->
  path_truthy (_data_dir (self st)) = true ->
  self (calls cls l st) = self st /\ fs (calls cls l st) = fs st.
Proof.
  revert st. induction l as [|c l IH]; intros st Hv Hb; [now split|].
  cbn [calls].
  destruct (call_on_bound_builder cls c st v Hv Hb) as [Hs Hf].
  destruct (IH (snd (call cls c st))) as [Hs' Hf'].
  - now rewrite Hs.
  - now rewrite Hs.
  - split; congruence.
Qed.

Lemma X11_bound_builder_is_inert_witness :
  self (calls mnist [Call_download_and_prepare (Some FORCE_REDOWNLOAD) true;
                     Call_set_version LATEST;
                     Call_download_and_prepare None false] restored_mnist)
  = self restored_mnist
  /\ fs (calls mnist [Call_download_and_prepare (Some FORCE_REDOWNLOAD) true;
                      Call_set_version LATEST;
                      Call_download_and_prepare None false] restored_mnist)
     = fs restored_mnist.
Proof.
  apply (X11_bound_builder_is_inert mnist restored_mnist v1_0_0); reflexivity.
Defined.

(** ** [as_dataset] *)

Lemma construct_without_data
    (cls : DatasetClass) (disk : gfile.FileSystem) (root : string)
    (config : ConfigArg) (version : option Version)
    (cfg : option BuilderConfig.t) (code : Ver) :
  validated_config cls config = Return cfg ->
  code_version_of cls cfg = Some code ->
  (forall x, requested_of version <> Explicit x) ->
  newest_on_disk disk (builder_data_dir cls root cfg) = None ->
  construct cls disk root config version
  = (Return tt,
     mkState (mkBuilder (Some code) cfg root None) disk
             (validation_log cls config
              ++ [LogNoPreviousData code; InfoInitializeFromPackageData])).
Proof.
  intros Hcfg Hcode Hreq Hnone.
  destruct (construct_run cls disk root config version cfg Hcfg)
    as (d & Hd & ->).
  rewrite get_data_dir_none in Hd.
  - injection Hd as <-.
    apply set_version_no_data; [assumption | reflexivity|].
    now apply not_explicit_in.
  - intros x Hx. injection Hx as Hx. now apply (Hreq x).
  - exact Hnone.
Qed.

Lemma as_dataset_on_bound_builder (TRAIN : string)
    (supervised_keys : option (string * string)) (b : DatasetBuilder)
    (v : Ver) (split : string) (batch_size : Z) (shuffle_files : option bool) :
  path_truthy (_data_dir b) = true ->
  _version b = Some v ->
  exists ops shuffle,
    as_dataset TRAIN supervised_keys b split batch_size shuffle_files false
    = inr (ops ++ [Prefetch; WithOptions (negb shuffle)])
    /\ hd_error ops = Some (AsDataset split shuffle)
    /\ shuffle = match shuffle_files with
                 | Some f => f
                 | None => String.eqb split TRAIN
                 end.
Proof.
  intros Hb Hv. unfold as_dataset. rewrite Hb, Hv. cbn [negb].
  destruct (Z.ltb 1 batch_size); eexists; eexists;
    (split; [reflexivity|]); split; reflexivity.
Qed.

(** X12.  Reading needs a build first.  On the builder the constructor
    returns under AUTO or LATEST when the disk holds no version of the
    dataset, [as_dataset] raises the "could not find data" assertion
    whatever its arguments; once [download_and_prepare] has run on it (the
    target directory being free), [as_dataset] returns a pipeline that
    starts with [_as_dataset] on the requested split and ends with the
    prefetch and the options, deterministic exactly when the files are not
    shuffled. *)
Theorem X12_read_requires_build
    (TRAIN : string) (supervised_keys : option (string * string))
    (cls : DatasetClass) (disk : gfile.FileSystem) (root : string)
    (config : ConfigArg) (version : option Version)
    (cfg : option BuilderConfig.t) (code : Ver) :
  validated_config cls config = Return cfg ->
  code_version_of cls cfg = Some code ->
  (forall x, requested_of version <> Explicit x) ->
  newest_on_disk disk (builder_data_dir cls root cfg) = None ->
  gfile.Exists disk
    (posixpath.join (builder_data_dir cls root cfg) (Ver_str code)) = false ->
  (forall split batch_size shuffle_files as_supervised,
      as_dataset TRAIN supervised_keys
        (self (snd (construct cls disk root config version)))
        split batch_size shuffle_files as_supervised
      = inl CouldNotFindData)
  /\ (forall mode compute_stats split batch_size shuffle_files,
         exists ops shuffle,
           as_dataset TRAIN supervised_keys
             (self (snd (download_and_prepare cls mode compute_stats
                           (snd (construct cls disk root config version)))))
             split batch_size shuffle_files false
           = inr (ops ++ [Prefetch; WithOptions (negb shuffle)])
           /\ hd_error ops = Some (AsDataset split shuffle)
           /\ shuffle = match shuffle_files with
                        | Some f => f
                        | None => String.eqb split TRAIN
                        end).
Proof.
  intros Hcfg Hcode Hreq Hnone Hfree.
  rewrite (construct_without_data cls disk root config version cfg code
             Hcfg Hcode Hreq Hnone).
  cbn [snd self]. split.
  - intros. reflexivity.
  - intros mode compute_stats split batch_size shuffle_files.
    destruct (first_call_binds cls
                (mkState (mkBuilder (Some code) cfg root None) disk
                   (validation_log cls config
                    ++ [LogNoPreviousData code; InfoInitializeFromPackageData]))
                mode compute_stats code eq_refl eq_refl Hfree)
      as (st' & -> & Hv' & _ & Hb').
    cbn [snd]. now apply as_dataset_on_bound_builder with (v := code).
Qed.

Lemma X12_read_requires_build_witness :
  (forall split batch_size shuffle_files as_supervised,
      as_dataset "train" None
        (self (snd (construct mnist [] "/data" ConfigNone None)))
        split batch_size shuffle_files as_supervised
      = inl CouldNotFindData)
  /\ (forall mode compute_stats split batch_size shuffle_files,
         exists ops shuffle,
           as_dataset "train" None
             (self (snd (download_and_prepare mnist mode compute_stats
                           (snd (construct mnist [] "/data" ConfigNone None)))))
             split batch_size shuffle_files false
           = inr (ops ++ [Prefetch; WithOptions (negb shuffle)])
           /\ hd_error ops = Some (AsDataset split shuffle)
           /\ shuffle = match shuffle_files with
                        | Some f => f
                        | None => String.eqb split "train"
                        end).
Proof.
  apply (X12_read_requires_build "train" None mnist [] "/data" ConfigNone None
           None v1_0_0); try reflexivity; discriminate.
Defined.

(** ** [builder_configs] and [_create_builder_config], further *)

Lemma dict_set_keys (k : string) (v : BuilderConfig.t) (d : dict) :
  In k (map fst d) -> map fst (dict_set k v d) = map fst d.
Proof.
  induction d as [|[k' v'] d IH]; simpl; [tauto|].
  destruct (String.eqb_spec k k') as [->|Hne]; [reflexivity|].
  intros [H|H]; [congruence|]. simpl. now rewrite IH.
Qed.

Lemma dict_get_set_same (k : string) (v : BuilderConfig.t) (d : dict) :
  dict_get k (dict_set k v d) = Some v.
Proof.
  induction d as [|[k' v'] d IH]; simpl.
  - now rewrite String.eqb_refl.
  - destruct (String.eqb k k') eqn:E; simpl; rewrite E; [reflexivity | exact IH].
Qed.

Lemma dict_get_set_other (k k' : string) (v : BuilderConfig.t) (d : dict) :
  k <> k' -> dict_get k (dict_set k' v d) = dict_get k d.
Proof.
  intros Hne. induction d as [|[k0 v0] d IH]; simpl.
  - now rewrite (proj2 (String.eqb_neq _ _) Hne).
  - destruct (String.eqb_spec k' k0) as [->|H0]; simpl.
    + now rewrite (proj2 (String.eqb_neq _ _) Hne).
    + now rewrite IH.
Qed.

Lemma fold_dict_set_length_le (configs : list BuilderConfig.t) (d : dict) :
  List.length
    (fold_left (fun d c => dict_set (BuilderConfig.name c) c d) configs d)
  <= List.length d + List.length configs
  /\ (~ NoDup (map BuilderConfig.name configs)
      \/ (exists c, In c configs /\ In (BuilderConfig.name c) (map fst d)) ->
      List.length
        (fold_left (fun d c => dict_set (BuilderConfig.name c) c d) configs d)
      < List.length d + List.length configs).
Proof.
  revert d. induction configs as [|c configs IH]; intros d; simpl.
  - split; [lia|]. intros [H|(c & [] & _)]. elim H. constructor.
  - destruct (in_dec string_dec (BuilderConfig.name c) (map fst d)) as [Hin|Hin].
    + assert (Hlen : List.length (dict_set (BuilderConfig.name c) c d)
                     = List.length d).
      { rewrite <- (length_map fst (dict_set _ _ _)), dict_set_keys by assumption.
        apply length_map. }
      destruct (IH (dict_set (BuilderConfig.name c) c d)) as [Hle _].
      rewrite Hlen in Hle. split; [lia|]. intros _. lia.
    + rewrite (dict_set_fresh _ _ _ Hin).
      destruct (IH (d ++ [(BuilderConfig.name c, c)])) as [Hle Hlt].
      rewrite length_app in Hle, Hlt. simpl in Hle, Hlt.
      split; [lia|]. intros H.
      assert (Hcase :
        ~ NoDup (map BuilderConfig.name configs)
        \/ exists c', In c' configs
                      /\ In (BuilderConfig.name c')
                            (map fst (d ++ [(BuilderConfig.name c, c)]))).
      { destruct H as [Hnd|(c' & [<-|Hc'] & Hk)].
        - destruct (in_dec string_dec (BuilderConfig.name c)
                      (map BuilderConfig.name configs)) as [Hdup|Hfresh].
          + right. apply in_map_iff in Hdup as (c' & Hn & Hc').
            exists c'. split; [assumption|].
            rewrite map_app, Hn. apply in_or_app. right. now left.
          + left. intros Hnd'. apply Hnd. now constructor.
        - contradiction.
        - right. exists c'. split; [assumption|].
          rewrite map_app. apply in_or_app. now left. }
      specialize (Hlt Hcase). lia.
Qed.

Lemma NoDup_distinct (l : list string) : NoDup l -> distinct l = true.
Proof.
  induction 1 as [|x l Hx _ IH]; simpl; [reflexivity|].
  rewrite IH, andb_true_r. apply negb_true_iff.
  destruct (existsb (String.eqb x) l) eqn:E; [|reflexivity].
  apply existsb_exists in E as (y & Hy & Hxy).
  apply String.eqb_eq in Hxy. subst. contradiction.
Qed.

(** [builder_configs] decides the distinctness of the names. *)
Lemma builder_configs_decides (cls : DatasetClass) (st : State) :
  builder_configs cls st
  = if distinct (map BuilderConfig.name (BUILDER_CONFIGS cls))
    then (Return (config_dict cls), st)
    else (Raise (ValueError DuplicatedConfigNames), st).
Proof.
  destruct (distinct (map BuilderConfig.name (BUILDER_CONFIGS cls))) eqn:E.
  - apply builder_configs_returns. now apply distinct_NoDup.
  - unfold builder_configs.
    destruct (fold_dict_set_length_le (BUILDER_CONFIGS cls) []) as [_ Hlt].
    fold (config_dict cls) in Hlt. simpl in Hlt.
    assert (List.length (config_dict cls) < List.length (BUILDER_CONFIGS cls)).
    { apply Hlt. left. intros Hnd. apply NoDup_distinct in Hnd. congruence. }
    destruct (Nat.eqb_spec (List.length (config_dict cls))
                           (List.length (BUILDER_CONFIGS cls)));
      [lia | reflexivity].
Qed.

(** X14.  [builder_configs] returns the dictionary exactly when no two
    configs of the class share a name, and raises "Names in BUILDER_CONFIGS
    must not be duplicated" otherwise; either way the state is untouched. *)
Theorem X14_builder_configs_iff_distinct_names
    (cls : DatasetClass) (st : State) :
  (distinct (map BuilderConfig.name (BUILDER_CONFIGS cls)) = true
   <-> builder_configs cls st = (Return (config_dict cls), st))
  /\ (distinct (map BuilderConfig.name (BUILDER_CONFIGS cls)) = false
      <-> builder_configs cls st
          = (Raise (ValueError DuplicatedConfigNames), st)).
Proof.
  rewrite builder_configs_decides.
  destruct (distinct (map BuilderConfig.name (BUILDER_CONFIGS cls)));
    intuition discriminate.
Qed.

Lemma find_app_last {A : Type} (f : A -> bool) (l : list A) (x : A) :
  find f (l ++ [x])
  = match find f l with
    | Some y => Some y
    | None => if f x then Some x else None
    end.
Proof.
  induction l as [|a l IH]; simpl; [reflexivity|].
  destruct (f a); [reflexivity | exact IH].
Qed.

(** Looking a name up in the dictionary finds the last config of that
    name. *)
Lemma fold_dict_get (n : string) (configs : list BuilderConfig.t) (d : dict) :
  dict_get n
    (fold_left (fun d c => dict_set (BuilderConfig.name c) c d) configs d)
  = match find (fun c => String.eqb (BuilderConfig.name c) n) (List.rev configs) with
    | Some c => Some c
    | None => dict_get n d
    end.
Proof.
  revert d. induction configs as [|c configs IH]; intros d; simpl;
    [reflexivity|].
  rewrite IH, find_app_last.
  destruct (find (fun c0 => String.eqb (BuilderConfig.name c0) n) (List.rev configs));
    [reflexivity|].
  destruct (String.eqb_spec (BuilderConfig.name c) n) as [<-|Hne].
  - apply dict_get_set_same.
  - apply dict_get_set_other. congruence.
Qed.

Lemma declared_find (cls : DatasetClass) (n : string) :
  declared cls n
  = find (fun c => String.eqb (BuilderConfig.name c) n)
         (List.rev (BUILDER_CONFIGS cls)).
Proof.
  unfold declared, config_dict. rewrite fold_dict_get.
  now destruct (find _ _).
Qed.

Lemma NoDup_map_inj {A B : Type} (f : A -> B) (l : list A) (x y : A) :
  NoDup (map f l) -> In x l -> In y l -> f x = f y -> x = y.
Proof.
  induction l as [|a l IH]; simpl; [tauto|].
  intros Hnd [->|Hx] [->|Hy] Hf; try reflexivity.
  - inversion Hnd as [|? ? Hnot _]; subst. elim Hnot.
    rewrite Hf. now apply in_map.
  - inversion Hnd as [|? ? Hnot _]; subst. elim Hnot.
    rewrite <- Hf. now apply in_map.
  - inversion Hnd; subst. now apply IH.
Qed.

Lemma declared_sound (cls : DatasetClass) (n : string) (c : BuilderConfig.t) :
  declared cls n = Some c ->
  In c (BUILDER_CONFIGS cls) /\ BuilderConfig.name c = n.
Proof.
  rewrite declared_find. intros H. apply find_some in H as [Hin Hn].
  split; [now apply in_rev | now apply String.eqb_eq].
Qed.

(** X15.  Insert and look up: when the names of the class's configs are
    distinct, the configs the dictionary finds are exactly the declared
    ones, each under its own name, and a name misses exactly when no
    declared config bears it. *)
Theorem X15_declared_lookup
    (cls : DatasetClass) :
  distinct (map BuilderConfig.name (BUILDER_CONFIGS cls)) = true ->
  (forall c, In c (BUILDER_CONFIGS cls)
             <-> declared cls (BuilderConfig.name c) = Some c)
  /\ (forall n c, declared cls n = Some c -> BuilderConfig.name c = n)
  /\ (forall n, declared cls n = None
                <-> ~ In n (map BuilderConfig.name (BUILDER_CONFIGS cls))).
Proof.
  intros Hd. apply distinct_NoDup in Hd. split; [|split].
  - intros c. split.
    + intros Hc.
      destruct (declared cls (BuilderConfig.name c)) as [c'|] eqn:E.
      * destruct (declared_sound _ _ _ E) as [Hin Hn].
        f_equal. now apply (NoDup_map_inj BuilderConfig.name
                              (BUILDER_CONFIGS cls)).
      * rewrite declared_find in E.
        apply in_rev in Hc. apply (find_none _ _ E c) in Hc.
        rewrite String.eqb_refl in Hc. discriminate.
    + intros H. now apply declared_sound in H.
  - intros n c H. now apply declared_sound in H.
  - intros n. split.
    + intros H Hin. apply in_map_iff in Hin as (c & Hn & Hc).
      rewrite declared_find in H.
      apply in_rev in Hc. apply (find_none _ _ H c) in Hc.
      rewrite Hn, String.eqb_refl in Hc. discriminate.
    + intros H. destruct (declared cls n) as [c|] eqn:E; [|reflexivity].
      apply declared_sound in E as [Hin <-]. elim H. now apply in_map.
Qed.

Lemma X15_declared_lookup_witness :
  (forall c, In c (BUILDER_CONFIGS flic)
             <-> declared flic (BuilderConfig.name c) = Some c)
  /\ (forall n c, declared flic n = Some c -> BuilderConfig.name c = n)
  /\ (forall n, declared flic n = None
                <-> ~ In n (map BuilderConfig.name (BUILDER_CONFIGS flic))).
Proof. apply (X15_declared_lookup flic). reflexivity. Defined.

(** X16.  A declared config may be given by name or as the object: for a
    non-empty name that the dictionary finds, [_create_builder_config] does
    the same on the name as on the config found. *)
Theorem X16_by_name_is_by_object
    (cls : DatasetClass) (n : string) (c : BuilderConfig.t) (st : State) :
  n <> EmptyString ->
  declared cls n = Some c ->
  _create_builder_config cls (ConfigName n) st
  = _create_builder_config cls (ConfigObj c) st.
Proof.
  intros Hn Hdecl.
  destruct (declared_sound _ _ _ Hdecl) as [_ Hname].
  unfold declared in Hdecl.
  unfold _create_builder_config, bind, ret.
  rewrite Hname, (proj2 (String.eqb_neq _ _) Hn).
  rewrite !builder_configs_decides.
  destruct (distinct (map BuilderConfig.name (BUILDER_CONFIGS cls))) eqn:Ed;
    [|reflexivity].
  rewrite Hdecl, Hname, (proj2 (String.eqb_neq _ _) Hn).
  rewrite ?builder_configs_decides, ?Ed, ?Hdecl. reflexivity.
Qed.

Lemma X16_by_name_is_by_object_witness :
  _create_builder_config flic (ConfigName "full") (mkState blank [] [])
  = _create_builder_config flic (ConfigObj flic_full) (mkState blank [] []).
Proof.
  apply (X16_by_name_is_by_object flic "full" flic_full);
    [discriminate | reflexivity].
Defined.

(** X17.  What holds of every config that validation lets through: it has
    a name, the names of the class's configs are distinct, and if its name
    is a declared one it is the declared object itself and carries a
    version and a non-empty description (otherwise it is a custom config,
    let through as it is). *)
Theorem X17_accepted_config
    (cls : DatasetClass) (config : ConfigArg) (bc : BuilderConfig.t) :
  validated_config cls config = Return (Some bc) ->
  BuilderConfig.name bc <> EmptyString
  /\ distinct (map BuilderConfig.name (BUILDER_CONFIGS cls)) = true
  /\ match declared cls (BuilderConfig.name bc) with
     | Some available =>
         is_ bc available = true
         /\ BuilderConfig.version bc <> None
         /\ str_truthy (BuilderConfig.description bc) = true
     | None => True
     end.
Proof.
  unfold validated_config, _create_builder_config, declared.
  destruct config as [|n|c];
    destruct (BUILDER_CONFIGS cls) as [|c0 rest] eqn:Ecfgs;
    unfold bind at 1; unfold ret at 1;
    try discriminate;
    try (destruct (String.eqb n EmptyString); [discriminate|];
         unfold bind at 1; rewrite builder_configs_decides;
         destruct (distinct (map BuilderConfig.name (BUILDER_CONFIGS cls)));
         [|discriminate];
         destruct (dict_get n (config_dict cls)) as [c1|]; [|discriminate];
         unfold ret at 1);
    match goal with
    | |- context [String.eqb (BuilderConfig.name ?x) EmptyString] =>
        destruct (String.eqb_spec (BuilderConfig.name x) EmptyString) as [|Hn];
        [discriminate|];
        unfold bind at 1; rewrite builder_configs_decides;
        rewrite <- ?Ecfgs;
        destruct (distinct (map BuilderConfig.name (BUILDER_CONFIGS cls)));
        [|discriminate];
        destruct (dict_get (BuilderConfig.name x) (config_dict cls))
          as [a|] eqn:Ea;
        [ destruct (is_ x a) eqn:Ei; cbn [negb]; [|discriminate];
          destruct (BuilderConfig.version x) eqn:Ev; cbn [truthy negb];
          [|discriminate];
          destruct (str_truthy (BuilderConfig.description x)) eqn:Es;
          cbn [negb]; [|discriminate];
          intros H; injection H as <-;
          rewrite Ea, Ei, Ev, Es; repeat split; auto; discriminate
        | cbn; intros H; injection H as <-;
          rewrite Ea; repeat split; auto ]
    end.
Qed.

Lemma X17_accepted_config_witness :
  BuilderConfig.name flic_full <> EmptyString
  /\ distinct (map BuilderConfig.name (BUILDER_CONFIGS flic)) = true
  /\ match declared flic (BuilderConfig.name flic_full) with
     | Some available =>
         is_ flic_full available = true
         /\ BuilderConfig.version flic_full <> None
         /\ str_truthy (BuilderConfig.description flic_full) = true
     | None => True
     end.
Proof.
  apply (X17_accepted_config flic (ConfigName "full") flic_full). reflexivity.
Defined.

(** X18.  A name that no declared config bears is refused: with distinct
    config names, the constructor given a non-empty undeclared name raises
    "BuilderConfig %s not found" before it sets anything or logs a line. *)
Theorem X18_unknown_config_name
    (cls : DatasetClass) (disk : gfile.FileSystem) (root : string)
    (n : string) (version : option Version) :
  n <> EmptyString ->
  distinct (map BuilderConfig.name (BUILDER_CONFIGS cls)) = true ->
  ~ In n (map BuilderConfig.name (BUILDER_CONFIGS cls)) ->
  construct cls disk root (ConfigName n) version
  = (Raise (ValueError BuilderConfigNotFound), mkState blank disk []).
Proof.
  intros Hn Hd Hnot.
  assert (Hdecl : declared cls n = None).
  { destruct (declared cls n) as [c|] eqn:E; [|reflexivity].
    apply declared_sound in E as [Hin <-]. elim Hnot. now apply in_map. }
  assert (Hrun : _create_builder_config cls (ConfigName n) (mkState blank [] [])
                 = (Raise (ValueError BuilderConfigNotFound),
                    mkState blank [] [])).
  { unfold _create_builder_config. unfold bind at 1.
    rewrite (proj2 (String.eqb_neq _ _) Hn).
    unfold bind at 1. rewrite builder_configs_decides, Hd.
    unfold declared in Hdecl. now rewrite Hdecl. }
  rewrite (construct_config_raises cls disk root (ConfigName n) version
             (ValueError BuilderConfigNotFound)).
  - unfold validation_log. now rewrite Hrun.
  - unfold validated_config. now rewrite Hrun.
Qed.

Lemma X18_unknown_config_name_witness :
  construct flic [] "/data" (ConfigName "medium") None
  = (Raise (ValueError BuilderConfigNotFound), mkState blank [] []).
Proof.
  apply (X18_unknown_config_name flic [] "/data" "medium" None);
    [discriminate | reflexivity|].
  simpl. intuition discriminate.
Defined.

(** X19.  A custom config is let through unchecked: a config object with a
    name that no declared config bears is accepted as it is, with or
    without version and description, and the only trace is the "Using
    custom data configuration" warning. *)
Theorem X19_custom_config_accepted
    (cls : DatasetClass) (bc : BuilderConfig.t) (st : State) :
  BuilderConfig.name bc <> EmptyString ->
  distinct (map BuilderConfig.name (BUILDER_CONFIGS cls)) = true ->
  declared cls (BuilderConfig.name bc) = None ->
  _create_builder_config cls (ConfigObj bc) st
  = (Return (Some bc),
     mkState (self st) (fs st)
             (log st ++ [WarnCustomConfig (BuilderConfig.name bc)])).
Proof.
  intros Hn Hd Hdecl. unfold declared in Hdecl.
  unfold _create_builder_config. unfold bind at 1. unfold ret at 1.
  rewrite (proj2 (String.eqb_neq _ _) Hn).
  unfold bind at 1. rewrite builder_configs_decides, Hd, Hdecl.
  destruct (BUILDER_CONFIGS cls); reflexivity.
Qed.

Lemma X19_custom_config_accepted_witness :
  _create_builder_config flic (ConfigObj mine) (mkState blank [] [])
  = (Return (Some mine),
     mkState blank [] [WarnCustomConfig (BuilderConfig.name mine)]).
Proof.
  apply (X19_custom_config_accepted flic mine (mkState blank [] []));
    [discriminate | reflexivity | reflexivity].
Defined.

(** ** Read instructions *)

(** X23.  The read instructions follow the file names: the file paths of
    the instruction dicts, in order, are the file names built for the
    splits of the slices, in order; and every dict carries the mask of the
    slice whose split its file belongs to. *)
Theorem X23_instructions_follow_filenames
    (Slice Mask : Type)
    (filepaths_for_dataset_split :
       string -> string -> nat -> option string -> string -> list string)
    (slice_to_percent_mask : Slice -> Mask) (filetype_suffix : string)
    (cls : DatasetClass) (b : DatasetBuilder)
    (l : list (GeneratorBasedBuilder.SlicedSplitInfo Slice)) :
  map fst
      (GeneratorBasedBuilder._slice_split_info_to_instruction_dicts
         filepaths_for_dataset_split slice_to_percent_mask filetype_suffix
         cls b l)
  = GeneratorBasedBuilder._build_split_filenames
      filepaths_for_dataset_split filetype_suffix cls b
      (map GeneratorBasedBuilder.split_info l)
  /\ forall filepath mask,
       In (filepath, mask)
          (GeneratorBasedBuilder._slice_split_info_to_instruction_dicts
             filepaths_for_dataset_split slice_to_percent_mask filetype_suffix
             cls b l)
       <-> exists sliced,
             In sliced l
             /\ In filepath
                   (GeneratorBasedBuilder._build_split_filenames
                      filepaths_for_dataset_split filetype_suffix cls b
                      [GeneratorBasedBuilder.split_info sliced])
             /\ mask = slice_to_percent_mask
                         (GeneratorBasedBuilder.slice_value sliced).
Proof.
  split.
  - induction l as [|x l IH]; [reflexivity|].
    cbn [GeneratorBasedBuilder._slice_split_info_to_instruction_dicts
         GeneratorBasedBuilder._build_split_filenames map].
    rewrite map_app, map_map, IH. cbn [fst].
    rewrite map_id, app_nil_r. reflexivity.
  - intros filepath mask. induction l as [|x l IH].
    + simpl. split; [tauto|]. intros (s & [] & _).
    + cbn [GeneratorBasedBuilder._slice_split_info_to_instruction_dicts].
      rewrite in_app_iff, in_map_iff, IH. split.
      * intros [(fp & Heq & Hin)|(s & Hs & Hin & Hm)].
        -- injection Heq as -> <-. exists x. repeat split; [now left|assumption].
        -- exists s. repeat split; [now right|assumption|assumption].
      * intros (s & [<-|Hs] & Hin & ->).
        -- left. exists filepath. split; [reflexivity|assumption].
        -- right. exists s. auto.
Qed.

(** ** Build, then reopen *)

Lemma split_on_app_sep (c : ascii) (s t : string) :
  posixpath.split_on c (s ++ String c t)
  = posixpath.split_on c s ++ posixpath.split_on c t.
Proof.
  rewrite split_on_app, app_assoc.
  now rewrite <- app_removelast_last by apply split_on_not_nil.
Qed.

Lemma components_app_sep (s t : string) :
  posixpath.components (s ++ String posixpath.sep t)
  = posixpath.components s ++ posixpath.components t.
Proof.
  unfold posixpath.components. now rewrite split_on_app_sep, filter_app.
Qed.

Lemma components_name (n : string) :
  has_char posixpath.sep n = false -> n <> EmptyString ->
  posixpath.components n = [n].
Proof.
  intros Hs Hn. unfold posixpath.components.
  rewrite (split_on_absent _ _ Hs). simpl.
  now rewrite (proj2 (String.eqb_neq _ _) Hn).
Qed.

(** The names on a joined path are those of the directory, then the name. *)
Lemma components_join (a n : string) :
  has_char posixpath.sep n = false -> n <> EmptyString ->
  posixpath.components (posixpath.join a n) = posixpath.components a ++ [n].
Proof.
  intros Hs Hn. unfold posixpath.join.
  destruct (posixpath.startswith_sep n) eqn:Hst.
  - destruct n as [|x n]; simpl in *; [discriminate|].
    rewrite Hst in Hs. discriminate.
  - destruct (String.eqb_spec a EmptyString) as [->|Ha]; simpl.
    + now apply components_name.
    + destruct (posixpath.endswith_sep a) eqn:He.
      * destruct (endswith_sep_inv _ He) as [a' ->].
        rewrite append_assoc. simpl.
        rewrite !components_app_sep, (components_name _ Hs Hn).
        simpl. now rewrite app_nil_r.
      * now rewrite components_app_sep, (components_name _ Hs Hn).
Qed.

Lemma join_append (a n s : string) :
  n <> EmptyString ->
  (posixpath.join a n ++ s)%string = posixpath.join a (n ++ s).
Proof.
  intros Hn. unfold posixpath.join.
  destruct n as [|x n]; [congruence|]. simpl.
  destruct (Ascii.eqb x posixpath.sep); [reflexivity|].
  destruct (String.eqb a EmptyString || posixpath.endswith_sep a);
    rewrite append_assoc; reflexivity.
Qed.

Lemma has_char_append (c : ascii) (a b : string) :
  has_char c (a ++ b) = has_char c a || has_char c b.
Proof.
  induction a as [|x a IH]; simpl; [reflexivity|].
  now rewrite IH, orb_assoc.
Qed.

Lemma strip_prefix_inv (p q r : list string) :
  gfile.strip_prefix p q = Some r -> q = p ++ r.
Proof.
  revert q. induction p as [|a p IH]; intros [|b q]; simpl;
    try discriminate; try (intros H; injection H as <-; reflexivity).
  destruct (String.eqb_spec a b) as [->|]; [|discriminate].
  intros H. now rewrite (IH _ H).
Qed.

Lemma strip_prefix_app (p r : list string) :
  gfile.strip_prefix p (p ++ r) = Some r.
Proof.
  induction p as [|a p IH]; simpl; [reflexivity|].
  now rewrite String.eqb_refl.
Qed.

Lemma In_dedup (n : string) (l : list string) :
  In n l -> In n (gfile.dedup l).
Proof.
  induction l as [|x l IH]; simpl; [tauto|].
  destruct (existsb (String.eqb x) l) eqn:E.
  - intros [<-|H]; [|now apply IH].
    apply existsb_exists in E as (y & Hy & Hxy).
    apply String.eqb_eq in Hxy. subst. now apply IH.
  - intros [<-|H]; [now left | right; now apply IH].
Qed.

Lemma ListDirectory_In (disk : gfile.FileSystem) (dir m : string) :
  In m (gfile.ListDirectory disk dir)
  <-> exists q rest,
        In q disk
        /\ gfile.strip_prefix (posixpath.components dir) q = Some (m :: rest).
Proof.
  unfold gfile.ListDirectory. split.
  - intros H. apply dedup_In, in_flat_map in H as (q & Hq & Hm).
    destruct (gfile.strip_prefix (posixpath.components dir) q)
      as [[|m' rest]|] eqn:E; try destruct Hm as [->|[]]; try destruct Hm.
    eauto.
  - intros (q & rest & Hq & Hs). apply In_dedup, in_flat_map.
    exists q. split; [assumption|]. rewrite Hs. now left.
Qed.

(** What the builder's directory lists once [tmp] has been made and renamed
    to [target]: the target's name, and names that were listed before. *)
Lemma listing_after_commit (disk : gfile.FileSystem) (dir n s : string) :
  has_char posixpath.sep n = false -> n <> EmptyString ->
  has_char posixpath.sep s = false ->
  In n (gfile.ListDirectory
          (gfile.Rename
             (gfile.MakeDirs disk (posixpath.join dir n ++ s))
             (posixpath.join dir n ++ s) (posixpath.join dir n)) dir)
  /\ forall m,
       In m (gfile.ListDirectory
               (gfile.Rename
                  (gfile.MakeDirs disk (posixpath.join dir n ++ s))
                  (posixpath.join dir n ++ s) (posixpath.join dir n)) dir) ->
       m = n \/ In m (gfile.ListDirectory disk dir).
Proof.
  intros Hs Hn Hss.
  assert (Hns : has_char posixpath.sep (n ++ s) = false).
  { now rewrite has_char_append, Hs, Hss. }
  assert (Hne : (n ++ s)%string <> EmptyString).
  { destruct n; [congruence | discriminate]. }
  rewrite (join_append dir n s Hn).
  unfold gfile.Rename, gfile.MakeDirs.
  rewrite (components_join dir _ Hns Hne), (components_join dir _ Hs Hn).
  set (cb := posixpath.components dir).
  split.
  - apply ListDirectory_In. fold cb.
    exists (cb ++ [n]), []. split; [|apply strip_prefix_app].
    apply in_map_iff. exists (cb ++ [(n ++ s)%string]).
    split; [|apply in_or_app; right; now left].
    now rewrite strip_prefix_refl, app_nil_r.
  - intros m Hm. apply ListDirectory_In in Hm as (q' & rest & Hq' & Hst).
    fold cb in Hst.
    apply in_map_iff in Hq' as (q & <- & Hq).
    destruct (gfile.strip_prefix (cb ++ [(n ++ s)%string]) q) as [r|] eqn:E.
    + left. rewrite <- app_assoc, strip_prefix_app in Hst.
      simpl in Hst. now injection Hst as <- _.
    + apply in_app_or in Hq as [Hq|[<-|[]]].
      * right. apply ListDirectory_In. fold cb. eauto.
      * now rewrite strip_prefix_refl in E.
Qed.

Lemma version_dirnames_only (names : list string) (n : string) (v : Ver) :
  Ver_parse n = Some v ->
  In n names ->
  (forall m w, In m names -> Ver_parse m = Some w -> m = n) ->
  exists t, sort_reverse (version_dirnames names) = (v, n) :: t.
Proof.
  intros Hv Hin Honly.
  destruct (sort_reverse_head (version_dirnames names))
    as ([w m] & t & Hs & Hh & _).
  - intros E.
    assert (In (v, n) (version_dirnames names)); [|now rewrite E in *].
    clear Honly. induction names as [|x names IH]; simpl in *; [tauto|].
    destruct Hin as [->|Hin].
    + rewrite Hv. now left.
    + destruct (Ver_parse x); [right|]; now apply IH.
  - apply version_dirnames_In in Hh as [Hm Hw].
    pose proof (Honly m w Hm Hw) as ->.
    rewrite Hv in Hw. injection Hw as <-. eauto.
Qed.

(** X13.  Build, then reopen.  A first build (no name under the builder's
    directory reads as a version yet, and the target is free) followed by a
    fresh construction on the disk it leaves, under AUTO, LATEST or the
    version itself, gives a builder restored at the code's version and
    bound to the very directory that was built, without warning. *)
Theorem X13_build_then_reopen
    (cls : DatasetClass) (st : State) (mode : option GenerateMode)
    (compute_stats : bool) (config : ConfigArg) (version : option Version)
    (code : Ver) :
  validated_config cls config = Return (_builder_config (self st)) ->
  code_version_of cls (_builder_config (self st)) = Some code ->
  _version (self st) = Some code ->
  path_truthy (_data_dir (self st)) = false ->
  newest_on_disk (fs st)
    (builder_data_dir cls (_data_dir_root (self st)) (_builder_config (self st)))
  = None ->
  gfile.Exists (fs st) (version_dir cls (self st) code) = false ->
  (forall x, requested_of version = Explicit x -> x = code) ->
  construct cls (fs (snd (download_and_prepare cls mode compute_stats st)))
            (_data_dir_root (self st)) config version
  = (Return tt,
     mkState (mkBuilder (Some code) (_builder_config (self st))
                        (_data_dir_root (self st))
                        (Some (version_dir cls (self st) code)))
             (fs (snd (download_and_prepare cls mode compute_stats st)))
             (validation_log cls config
              ++ [LogRestoring code (Some (version_dir cls (self st) code));
                  InfoReadFromDirectory
                    (Some (version_dir cls (self st) code))])).
Proof.
  intros Hcfg Hcode Hv Hu Hnone Hfree Hreq.
  destruct st as [[ver cfg root d] disk lg].
  unfold version_dir in *.
  cbn [self fs log _version _data_dir _data_dir_root _builder_config] in *.
  subst ver.
  set (dir := builder_data_dir cls root cfg) in *.
  assert (Hdisk :
    fs (snd (download_and_prepare cls mode compute_stats
               (mkState (mkBuilder (Some code) cfg root d) disk lg)))
    = gfile.Rename
        (gfile.MakeDirs disk
           (incomplete_dir_name (posixpath.join dir (Ver_str code))))
        (incomplete_dir_name (posixpath.join dir (Ver_str code)))
        (posixpath.join dir (Ver_str code))).
  { unfold download_and_prepare; unfold_py.
    cbn [fst snd self fs log _version _builder_config _data_dir _data_dir_root].
    rewrite Hu. step_py. fold dir. rewrite Hfree.
    destruct compute_stats; reflexivity. }
  rewrite Hdisk. clear Hdisk.
  set (disk' := gfile.Rename _ _ _).
  destruct (Ver_parse_name _ _ (Ver_parse_str code)) as [Hsep Hne].
  destruct (listing_after_commit disk dir (Ver_str code) ".incomplete"
              Hsep Hne eq_refl) as [Hin Hother].
  fold (incomplete_dir_name (posixpath.join dir (Ver_str code))) in Hin, Hother.
  fold disk' in Hin, Hother.
  pose proof (newest_on_disk_spec disk dir) as Hold. rewrite Hnone in Hold.
  destruct (version_dirnames_only (gfile.ListDirectory disk' dir)
              (Ver_str code) code (Ver_parse_str code) Hin) as [t Ht].
  { intros m w Hm Hw. destruct (Hother m Hm) as [->|Hm']; [reflexivity|].
    rewrite (Hold m Hm') in Hw. discriminate. }
  destruct (construct_run cls disk' root config version cfg Hcfg)
    as (d' & Hd' & ->).
  assert (d' = Some (posixpath.join dir (Ver_str code))) as ->.
  { destruct (requested_of version) as [| |x] eqn:Er.
    - revert Hd'. run_py. fold dir.
      rewrite (listed_dir_exists _ _ _ Hin), Ht. cbn [negb].
      intros H. now injection H as <-.
    - revert Hd'. run_py. fold dir.
      rewrite (listed_dir_exists _ _ _ Hin), Ht. cbn [negb].
      intros H. now injection H as <-.
    - rewrite (Hreq x eq_refl), get_data_dir_explicit in Hd'.
      now injection Hd' as <-. }
  destruct (Ver_parse_basename_join dir (Ver_str code) code
              (Ver_parse_str code)) as [Hb Hp].
  cbn [path_truthy] in Hp.
  now apply set_version_restores_same.
Qed.

Lemma X13_build_then_reopen_witness :
  construct mnist (fs (snd (download_and_prepare mnist None true fresh_mnist)))
            (_data_dir_root (self fresh_mnist)) ConfigNone (Some LATEST)
  = (Return tt,
     mkState (mkBuilder (Some v1_0_0) (_builder_config (self fresh_mnist))
                        (_data_dir_root (self fresh_mnist))
                        (Some (version_dir mnist (self fresh_mnist) v1_0_0)))
             (fs (snd (download_and_prepare mnist None true fresh_mnist)))
             (validation_log mnist ConfigNone
              ++ [LogRestoring v1_0_0
                    (Some (version_dir mnist (self fresh_mnist) v1_0_0));
                  InfoReadFromDirectory
                    (Some (version_dir mnist (self fresh_mnist) v1_0_0))])).
Proof.
  apply (X13_build_then_reopen mnist fresh_mnist None true ConfigNone
           (Some LATEST) v1_0_0); try reflexivity.
  discriminate.
Defined.
